(** * sanic_openapi.doc: schema serialization and route documenters

    A shallow embedding of [sanic_openapi/doc.py]: the Field hierarchy and
    its [serialize] methods, the recursive resolver [serialize_schema], the
    module-level [definitions] dictionary filled by [Object.__init__], and
    the [route_specs] table written by the route documenters.

    Conventions of the embedding.
    - A Python value is a finite tree ([PyVal]).  Descriptors that contain
      themselves, on which the source recurses until [RecursionError], are
      not values of this type.
    - A Python [dict] with string keys is an association list kept in
      insertion order with at most one binding per key ([dict_set]).
    - The module-level [definitions] dictionary is threaded explicitly; an
      exception leaves the mutations made before it in place. *)

From stdpp Require Import base option list strings gmap.
From Stdlib Require Import ZArith Ascii.

Set Warnings "-register-all,-clear-no-such-hyp".
Local Open Scope string_scope.
Local Open Scope list_scope.

(** ** Insertion-ordered dictionaries *)

Section Dict.
Context {K V : Type} `{EqDecision K}.

(** [d[k] = v]: overwrite in place when [k] is bound, append otherwise. *)
Fixpoint dict_set (d : list (K * V)) (k : K) (v : V) : list (K * V) :=
  match d with
  | [] => [(k, v)]
  | (k', v') :: d' =>
      if decide (k' = k) then (k, v) :: d' else (k', v') :: dict_set d' k v
  end.

Fixpoint dict_get (d : list (K * V)) (k : K) : option V :=
  match d with
  | [] => None
  | (k', v') :: d' => if decide (k' = k) then Some v' else dict_get d' k
  end.

(** [k in d] *)
Definition dict_mem (d : list (K * V)) (k : K) : bool :=
  match dict_get d k with Some _ => true | None => false end.

(** [{**d1, **d2}]: the bindings of [d2] are written over [d1] in order. *)
Definition dict_update (d1 d2 : list (K * V)) : list (K * V) :=
  foldl (fun acc kv => dict_set acc kv.1 kv.2) d1 d2.

(** Number of bindings of [k]. *)
Definition dict_count (d : list (K * V)) (k : K) : nat :=
  length (filter (fun kv => kv.1 = k) d).

Definition dict_keys (d : list (K * V)) : list K := d.*1.
End Dict.

(** ** Python values *)

(** The builtin classes that [serialize_schema] tests with [is]. *)
Inductive Builtin :=
  | Bdict | Blist | Bint | Bstr | Bbool | Bfloat | Bdate | Bdatetime.

(** The classes of the Field hierarchy declared in the module. *)
Inductive FieldClass :=
  | CField | CInteger | CFile | CString | CFloat | CBoolean | CTuple
  | CDate | CDateTime | CDictionary | CList | CObject.

(** The attributes set by [Field.__init__]. *)
Record FieldAttrs (V : Type) := mkFieldAttrs {
  f_name : V;
  f_description : V;
  f_required : V;
  f_default : V;
  f_enum : V;
  f_indata : V;
}.
Arguments mkFieldAttrs {V}.
Arguments f_name {V}.
Arguments f_description {V}.
Arguments f_required {V}.
Arguments f_default {V}.
Arguments f_enum {V}.
Arguments f_indata {V}.

(** A class whose type is [type] and that is none of the above: identity
    (what [is] and hashing see), [__name__] and [__dict__]. *)
Record PyClass (V : Type) := mkClass {
  cls_id : nat;
  cls_name : string;
  cls_dict : list (string * V);
}.
Arguments mkClass {V}.
Arguments cls_id {V}.
Arguments cls_name {V}.
Arguments cls_dict {V}.

(** An instance of [Object]. *)
Record ObjectInst (V : Type) := mkObject {
  o_attrs : FieldAttrs V;
  o_cls : PyClass V;
  o_object_name : string;
}.
Arguments mkObject {V}.
Arguments o_attrs {V}.
Arguments o_cls {V}.
Arguments o_object_name {V}.

(** Instances of the Field hierarchy, with the attributes their
    constructors add to those of [Field]. *)
Inductive FieldObj (V : Type) :=
  | IField (a : FieldAttrs V)
  | IInteger (a : FieldAttrs V) (minimum maximum : V)
  | IFile (a : FieldAttrs V)
  | IString (a : FieldAttrs V)
  | IFloat (a : FieldAttrs V) (minimum maximum : V)
  | IBoolean (a : FieldAttrs V)
  | ITuple (a : FieldAttrs V)
  | IDate (a : FieldAttrs V)
  | IDateTime (a : FieldAttrs V)
  | IDictionary (a : FieldAttrs V) (fields : list (string * V))
  | IList (a : FieldAttrs V) (items : list V)
  | IObject (o : ObjectInst V).
Arguments IField {V}.
Arguments IInteger {V}.
Arguments IFile {V}.
Arguments IString {V}.
Arguments IFloat {V}.
Arguments IBoolean {V}.
Arguments ITuple {V}.
Arguments IDate {V}.
Arguments IDateTime {V}.
Arguments IDictionary {V}.
Arguments IList {V}.
Arguments IObject {V}.

Inductive PyVal :=
  | VNone
  | VBool (b : bool)
  | VInt (z : Z)
  | VStr (s : string)
  | VList (l : list PyVal)
  | VTuple (l : list PyVal)
  | VDict (d : list (string * PyVal))
  | VBuiltin (b : Builtin)
  | VFieldClass (c : FieldClass)
  | VClass (c : PyClass PyVal)
  (** a class whose metaclass is not [type] *)
  | VMetaClass (c : PyClass PyVal)
  | VField (f : FieldObj PyVal)
  (** any other object (a float, a function, ...), with its truth value *)
  | VOther (id : nat) (truth : bool).

Abbreviation Dict := (list (string * PyVal)).
Abbreviation Attrs := (FieldAttrs PyVal).
Abbreviation Class := (PyClass PyVal).
Abbreviation Inst := (FieldObj PyVal).
Abbreviation Obj := (ObjectInst PyVal).

(** [bool(v)] *)
Definition truthy (v : PyVal) : bool :=
  match v with
  | VNone => false
  | VBool b => b
  | VInt z => negb (Z.eqb z 0)
  | VStr s => negb (String.eqb s "")
  | VList l | VTuple l => negb (Nat.eqb (length l) 0)
  | VDict d => negb (Nat.eqb (length d) 0)
  | VBuiltin _ | VFieldClass _ | VClass _ | VMetaClass _ | VField _ => true
  | VOther _ t => t
  end.

(** [v is not None] *)
Definition is_not_None (v : PyVal) : bool :=
  match v with VNone => false | _ => true end.

(** [a or b] *)
Definition py_or (a b : PyVal) : PyVal := if truthy a then a else b.

(** ** The Field hierarchy *)

Definition attrs_of (f : Inst) : Attrs :=
  match f with
  | IField a | IInteger a _ _ | IFile a | IString a | IFloat a _ _
  | IBoolean a | ITuple a | IDate a | IDateTime a | IDictionary a _
  | IList a _ => a
  | IObject o => o_attrs o
  end.

Definition class_of (f : Inst) : FieldClass :=
  match f with
  | IField _ => CField | IInteger _ _ _ => CInteger | IFile _ => CFile
  | IString _ => CString | IFloat _ _ _ => CFloat | IBoolean _ => CBoolean
  | ITuple _ => CTuple | IDate _ => CDate | IDateTime _ => CDateTime
  | IDictionary _ _ => CDictionary | IList _ _ => CList
  | IObject _ => CObject
  end.

(** [Field.__init__(self, description=None, required=None, name=None,
    default=None, enum=None, indata=None)] *)
Definition Field_init (description required name default enum indata : PyVal)
  : Attrs :=
  {| f_name := name; f_description := description; f_required := required;
     f_default := default; f_enum := enum; f_indata := indata |}.

(** The attributes after a constructor call without arguments. *)
Definition no_attrs : Attrs := Field_init VNone VNone VNone VNone VNone VNone.

(** [Field.serialize] *)
Definition Field_serialize (a : Attrs) : Dict :=
  let output : Dict := [] in
  let output :=
    if truthy (f_name a) then dict_set output "name" (f_name a) else output in
  let output :=
    if truthy (f_description a)
    then dict_set output "description" (f_description a) else output in
  let output :=
    if is_not_None (f_required a)
    then dict_set output "required" (f_required a) else output in
  let output :=
    if is_not_None (f_default a)
    then dict_set output "default" (f_default a) else output in
  let output :=
    if is_not_None (f_enum a)
    then dict_set output "enum" (f_enum a) else output in
  let output :=
    if is_not_None (f_indata a)
    then dict_set output "in" (f_indata a) else output in
  output.

(** [Integer.__init__] and [Float.__init__]: [enum] is accepted and not
    passed on to [Field.__init__], which also leaves [indata] at [None]. *)
Definition Integer_init
  (description required name default enum minimum maximum : PyVal) : Inst :=
  IInteger (Field_init description required name default VNone VNone)
           minimum maximum.

Definition Float_init
  (description required name default enum minimum maximum : PyVal) : Inst :=
  IFloat (Field_init description required name default VNone VNone)
         minimum maximum.

(** The classes without a constructor of their own inherit
    [Field.__init__]. *)
Definition File_init (a : Attrs) : Inst := IFile a.
Definition String_init (a : Attrs) : Inst := IString a.
Definition Boolean_init (a : Attrs) : Inst := IBoolean a.
Definition Tuple_init (a : Attrs) : Inst := ITuple a.
Definition Date_init (a : Attrs) : Inst := IDate a.
Definition DateTime_init (a : Attrs) : Inst := IDateTime a.

(** [Dictionary.__init__(self, fields=None, **kwargs)]:
    [self.fields = fields or {}]. *)
Definition Dictionary_init (fields : option Dict) (a : Attrs) : Inst :=
  IDictionary a
    match fields with
    | Some d => if truthy (VDict d) then d else []
    | None => []
    end.

(** [List.__init__(self, items=None, *args, **kwargs)]:
    [self.items = items or []], wrapped in a list when it is not one. *)
Definition List_init (items : PyVal) (a : Attrs) : Inst :=
  match py_or items (VList []) with
  | VList l => IList a l
  | v => IList a [v]
  end.

(** The [minimum]/[maximum] part of [Integer.serialize] and
    [Float.serialize]. *)
Definition addition (minimum maximum : PyVal) : Dict :=
  let addition : Dict := [] in
  let addition :=
    if is_not_None minimum then dict_set addition "minimum" minimum
    else addition in
  let addition :=
    if is_not_None maximum then dict_set addition "maximum" maximum
    else addition in
  addition.

Definition Integer_serialize (a : Attrs) (minimum maximum : PyVal) : Dict :=
  dict_update
    (dict_update [("type", VStr "integer"); ("format", VStr "int64")]
                 (addition minimum maximum))
    (Field_serialize a).

Definition File_serialize (a : Attrs) : Dict :=
  dict_update [("type", VStr "file")] (Field_serialize a).

Definition String_serialize (a : Attrs) : Dict :=
  dict_update [("type", VStr "string")] (Field_serialize a).

Definition Float_serialize (a : Attrs) (minimum maximum : PyVal) : Dict :=
  dict_update
    (dict_update [("type", VStr "number"); ("format", VStr "float")]
                 (addition minimum maximum))
    (Field_serialize a).

Definition Boolean_serialize (a : Attrs) : Dict :=
  dict_update [("type", VStr "boolean")] (Field_serialize a).

(** [class Tuple(Field): pass] *)
Definition Tuple_serialize (a : Attrs) : Dict := Field_serialize a.

Definition Date_serialize (a : Attrs) : Dict :=
  dict_update [("type", VStr "date")] (Field_serialize a).

Definition DateTime_serialize (a : Attrs) : Dict :=
  dict_update [("type", VStr "dateTime")] (Field_serialize a).

(** [Object.serialize] *)
Definition Object_serialize (self : Obj) : Dict :=
  dict_update
    [("$ref", VStr (String.append "#/definitions/" (o_object_name self)))]
    (Field_serialize (o_attrs self)).

(** ** Exceptions and the [definitions] dictionary *)

Inductive PyExc := UnboundLocalError | TypeError.

Inductive Result (A : Type) :=
  | Ok (a : A)
  | Raise (e : PyExc).
Arguments Ok {A}.
Arguments Raise {A}.

(** [definitions]: class -> [(instance, definition)], keyed by the identity
    of the class. *)
Abbreviation Definitions := (list (nat * (Obj * Dict))).

(** A computation that reads and writes [definitions] and may raise. *)
Definition M (A : Type) : Type := Definitions -> Definitions * Result A.

Definition ret {A} (a : A) : M A := fun defs => (defs, Ok a).
Definition raise {A} (e : PyExc) : M A := fun defs => (defs, Raise e).
Definition bind {A B} (m : M A) (k : A -> M B) : M B :=
  fun defs =>
    match m defs with
    | (defs', Ok a) => k a defs'
    | (defs', Raise e) => (defs', Raise e)
    end.

Notation "x <- m ;; k" := (bind m (fun x => k))
  (at level 100, m at next level, right associativity).

(** [key.startswith("_")] *)
Definition startswith_underscore (key : string) : bool :=
  match key with
  | String c _ => Ascii.eqb c "_"%char
  | EmptyString => false
  end.

(** [object_name or cls.__name__] *)
Definition ref_name (object_name : option string) (cls : Class) : string :=
  match object_name with
  | Some n => if truthy (VStr n) then n else cls_name cls
  | None => cls_name cls
  end.

Section Methods.
(** The methods that call the resolver take it as [serialize_schema]. *)
Variable serialize_schema : PyVal -> M Dict.

(** [{key: serialize_schema(schema) for key, schema in fields}] with the
    filter [keep] on the keys. *)
Fixpoint properties (keep : string -> bool) (fields : Dict) (acc : Dict)
  : M Dict :=
  match fields with
  | [] => ret acc
  | (key, schema) :: fields' =>
      if keep key then
        v <- serialize_schema schema ;;
        properties keep fields' (dict_set acc key (VDict v))
      else properties keep fields' acc
  end.

(** [Dictionary.serialize] *)
Definition Dictionary_serialize_with (a : Attrs) (fields : Dict) : M Dict :=
  props <- properties (fun _ => true) fields [] ;;
  ret (dict_update
         [("type", VStr "object"); ("properties", VDict props)]
         (Field_serialize a)).

(** [List.serialize]: [items] is bound for more than one item and for
    exactly one, and read unbound otherwise. *)
Definition List_serialize_with (items : list PyVal) : M Dict :=
  match items with
  | _ :: _ :: _ =>
      let items' :=
        Tuple_serialize (Field_init (VList items) VNone VNone VNone VNone VNone) in
      ret [("type", VStr "array"); ("items", VDict items')]
  | [item] =>
      items' <- serialize_schema item ;;
      ret [("type", VStr "array"); ("items", VDict items')]
  | [] => raise UnboundLocalError
  end.

(** The property [Object.definition] *)
Definition Object_definition_with (a : Attrs) (cls : Class) : M Dict :=
  props <- properties (fun key => negb (startswith_underscore key))
                      (cls_dict cls) [] ;;
  ret (dict_update
         [("type", VStr "object"); ("properties", VDict props)]
         (Field_serialize a)).

(** [Object.__init__(self, cls, *args, object_name=None, **kwargs)] *)
Definition Object_init_with
  (cls : Class) (a : Attrs) (object_name : option string) : M Obj :=
  let self := mkObject a cls (ref_name object_name cls) in
  fun defs =>
    if negb (dict_mem defs (cls_id cls)) then
      (definition <- Object_definition_with a cls ;;
       fun defs' => (dict_set defs' (cls_id cls) (self, definition), Ok self))
        defs
    else (defs, Ok self).

(** [self.serialize()] on an instance of the hierarchy *)
Definition serialize_with (f : Inst) : M Dict :=
  match f with
  | IField a => ret (Field_serialize a)
  | IInteger a mi ma => ret (Integer_serialize a mi ma)
  | IFile a => ret (File_serialize a)
  | IString a => ret (String_serialize a)
  | IFloat a mi ma => ret (Float_serialize a mi ma)
  | IBoolean a => ret (Boolean_serialize a)
  | ITuple a => ret (Tuple_serialize a)
  | IDate a => ret (Date_serialize a)
  | IDateTime a => ret (DateTime_serialize a)
  | IDictionary a fields => Dictionary_serialize_with a fields
  | IList a items => List_serialize_with items
  | IObject self => ret (Object_serialize self)
  end.

(** [schema().serialize()] for a class of the hierarchy: every
    constructor but that of [Object], which needs [cls], runs without
    arguments. *)
Definition instantiate_serialize_with (c : FieldClass) : M Dict :=
  match c with
  | CField => serialize_with (IField no_attrs)
  | CInteger =>
      serialize_with
        (Integer_init VNone VNone VNone VNone VNone VNone VNone)
  | CFile => serialize_with (File_init no_attrs)
  | CString => serialize_with (String_init no_attrs)
  | CFloat =>
      serialize_with (Float_init VNone VNone VNone VNone VNone VNone VNone)
  | CBoolean => serialize_with (Boolean_init no_attrs)
  | CTuple => serialize_with (Tuple_init no_attrs)
  | CDate => serialize_with (Date_init no_attrs)
  | CDateTime => serialize_with (DateTime_init no_attrs)
  | CDictionary => serialize_with (Dictionary_init None no_attrs)
  | CList => serialize_with (List_init VNone no_attrs)
  | CObject => raise TypeError
  end.
End Methods.

(** ** The resolver *)

Fixpoint serialize_schema (schema : PyVal) {struct schema} : M Dict :=
  match schema with
  (* schema_type is type *)
  | VFieldClass c => instantiate_serialize_with serialize_schema c
  | VBuiltin Bdict =>
      serialize_with serialize_schema (Dictionary_init None no_attrs)
  | VBuiltin Blist => serialize_with serialize_schema (List_init VNone no_attrs)
  | VBuiltin Bint =>
      serialize_with serialize_schema
        (Integer_init VNone VNone VNone VNone VNone VNone VNone)
  | VBuiltin Bstr => serialize_with serialize_schema (String_init no_attrs)
  | VBuiltin Bbool => serialize_with serialize_schema (Boolean_init no_attrs)
  | VBuiltin Bfloat =>
      serialize_with serialize_schema
        (Float_init VNone VNone VNone VNone VNone VNone VNone)
  | VBuiltin Bdate => serialize_with serialize_schema (Date_init no_attrs)
  | VBuiltin Bdatetime =>
      serialize_with serialize_schema (DateTime_init no_attrs)
  | VClass cls =>
      self <- Object_init_with serialize_schema cls no_attrs None ;;
      ret (Object_serialize self)
  (* an instance *)
  | VField f => serialize_with serialize_schema f
  (* Dictionary(schema) and List(schema): on a dict or a list, [fields or {}]
     and [items or []] give back the argument (Dictionary_init_dict,
     List_init_list below) *)
  | VDict d => serialize_with serialize_schema (IDictionary no_attrs d)
  | VList l => serialize_with serialize_schema (IList no_attrs l)
  | _ => ret []
  end.

(** The methods, with the resolver in place. *)
Definition Dictionary_serialize := Dictionary_serialize_with serialize_schema.
Definition List_serialize := List_serialize_with serialize_schema.
Definition Object_definition := Object_definition_with serialize_schema.
Definition Object_init := Object_init_with serialize_schema.
Definition serialize := serialize_with serialize_schema.
Definition instantiate_serialize :=
  instantiate_serialize_with serialize_schema.

(** Running a computation: the final [definitions] and the outcome. *)
Definition run {A} (m : M A) (defs : Definitions) : Definitions * Result A :=
  m defs.

(** ** Route documenters *)

(** [class RouteSpec]: every attribute starts at [None], [tags] at a fresh
    empty list. *)
Record RouteSpec := mkRouteSpec {
  rs_consumes : PyVal;
  rs_consumes_content_type : PyVal;
  rs_produces : PyVal;
  rs_produces_content_type : PyVal;
  rs_summary : PyVal;
  rs_description : PyVal;
  rs_operation : PyVal;
  rs_blueprint : PyVal;
  rs_tags : list PyVal;
  rs_hide : PyVal;
  rs_produces_description : PyVal;
  rs_produces_examples : PyVal;
  rs_headers : PyVal;
}.

Definition RouteSpec_init : RouteSpec :=
  {| rs_consumes := VNone;
     rs_consumes_content_type := VNone;
     rs_produces := VNone;
     rs_produces_content_type := VNone;
     rs_summary := VNone;
     rs_description := VNone;
     rs_operation := VNone;
     rs_blueprint := VNone;
     rs_tags := [];
     rs_hide := VNone;
     rs_produces_description := VNone;
     rs_produces_examples := VNone;
     rs_headers := VNone |}.

(** The attributes of a [RouteSpec] other than [tags]. *)
Inductive Attr :=
  | Aconsumes
  | Aconsumes_content_type
  | Aproduces
  | Aproduces_content_type
  | Asummary
  | Adescription
  | Aoperation
  | Ablueprint
  | Ahide
  | Aproduces_description
  | Aproduces_examples
  | Aheaders.

#[local] Instance Attr_eq_dec : EqDecision Attr.
Proof. solve_decision. Defined.

(** [route_spec.attr] *)
Definition getattr (r : RouteSpec) (attr : Attr) : PyVal :=
  match attr with
  | Aconsumes => rs_consumes r
  | Aconsumes_content_type => rs_consumes_content_type r
  | Aproduces => rs_produces r
  | Aproduces_content_type => rs_produces_content_type r
  | Asummary => rs_summary r
  | Adescription => rs_description r
  | Aoperation => rs_operation r
  | Ablueprint => rs_blueprint r
  | Ahide => rs_hide r
  | Aproduces_description => rs_produces_description r
  | Aproduces_examples => rs_produces_examples r
  | Aheaders => rs_headers r
  end.

(** [route_spec.attr = v] *)
Definition setattr (r : RouteSpec) (attr : Attr) (v : PyVal) : RouteSpec :=
  match attr with
  | Aconsumes =>
      {| rs_consumes := v;
         rs_consumes_content_type := rs_consumes_content_type r;
         rs_produces := rs_produces r;
         rs_produces_content_type := rs_produces_content_type r;
         rs_summary := rs_summary r;
         rs_description := rs_description r;
         rs_operation := rs_operation r;
         rs_blueprint := rs_blueprint r;
         rs_tags := rs_tags r;
         rs_hide := rs_hide r;
         rs_produces_description := rs_produces_description r;
         rs_produces_examples := rs_produces_examples r;
         rs_headers := rs_headers r |}
  | Aconsumes_content_type =>
      {| rs_consumes := rs_consumes r;
         rs_consumes_content_type := v;
         rs_produces := rs_produces r;
         rs_produces_content_type := rs_produces_content_type r;
         rs_summary := rs_summary r;
         rs_description := rs_description r;
         rs_operation := rs_operation r;
         rs_blueprint := rs_blueprint r;
         rs_tags := rs_tags r;
         rs_hide := rs_hide r;
         rs_produces_description := rs_produces_description r;
         rs_produces_examples := rs_produces_examples r;
         rs_headers := rs_headers r |}
  | Aproduces =>
      {| rs_consumes := rs_consumes r;
         rs_consumes_content_type := rs_consumes_content_type r;
         rs_produces := v;
         rs_produces_content_type := rs_produces_content_type r;
         rs_summary := rs_summary r;
         rs_description := rs_description r;
         rs_operation := rs_operation r;
         rs_blueprint := rs_blueprint r;
         rs_tags := rs_tags r;
         rs_hide := rs_hide r;
         rs_produces_description := rs_produces_description r;
         rs_produces_examples := rs_produces_examples r;
         rs_headers := rs_headers r |}
  | Aproduces_content_type =>
      {| rs_consumes := rs_consumes r;
         rs_consumes_content_type := rs_consumes_content_type r;
         rs_produces := rs_produces r;
         rs_produces_content_type := v;
         rs_summary := rs_summary r;
         rs_description := rs_description r;
         rs_operation := rs_operation r;
         rs_blueprint := rs_blueprint r;
         rs_tags := rs_tags r;
         rs_hide := rs_hide r;
         rs_produces_description := rs_produces_description r;
         rs_produces_examples := rs_produces_examples r;
         rs_headers := rs_headers r |}
  | Asummary =>
      {| rs_consumes := rs_consumes r;
         rs_consumes_content_type := rs_consumes_content_type r;
         rs_produces := rs_produces r;
         rs_produces_content_type := rs_produces_content_type r;
         rs_summary := v;
         rs_description := rs_description r;
         rs_operation := rs_operation r;
         rs_blueprint := rs_blueprint r;
         rs_tags := rs_tags r;
         rs_hide := rs_hide r;
         rs_produces_description := rs_produces_description r;
         rs_produces_examples := rs_produces_examples r;
         rs_headers := rs_headers r |}
  | Adescription =>
      {| rs_consumes := rs_consumes r;
         rs_consumes_content_type := rs_consumes_content_type r;
         rs_produces := rs_produces r;
         rs_produces_content_type := rs_produces_content_type r;
         rs_summary := rs_summary r;
         rs_description := v;
         rs_operation := rs_operation r;
         rs_blueprint := rs_blueprint r;
         rs_tags := rs_tags r;
         rs_hide := rs_hide r;
         rs_produces_description := rs_produces_description r;
         rs_produces_examples := rs_produces_examples r;
         rs_headers := rs_headers r |}
  | Aoperation =>
      {| rs_consumes := rs_consumes r;
         rs_consumes_content_type := rs_consumes_content_type r;
         rs_produces := rs_produces r;
         rs_produces_content_type := rs_produces_content_type r;
         rs_summary := rs_summary r;
         rs_description := rs_description r;
         rs_operation := v;
         rs_blueprint := rs_blueprint r;
         rs_tags := rs_tags r;
         rs_hide := rs_hide r;
         rs_produces_description := rs_produces_description r;
         rs_produces_examples := rs_produces_examples r;
         rs_headers := rs_headers r |}
  | Ablueprint =>
      {| rs_consumes := rs_consumes r;
         rs_consumes_content_type := rs_consumes_content_type r;
         rs_produces := rs_produces r;
         rs_produces_content_type := rs_produces_content_type r;
         rs_summary := rs_summary r;
         rs_description := rs_description r;
         rs_operation := rs_operation r;
         rs_blueprint := v;
         rs_tags := rs_tags r;
         rs_hide := rs_hide r;
         rs_produces_description := rs_produces_description r;
         rs_produces_examples := rs_produces_examples r;
         rs_headers := rs_headers r |}
  | Ahide =>
      {| rs_consumes := rs_consumes r;
         rs_consumes_content_type := rs_consumes_content_type r;
         rs_produces := rs_produces r;
         rs_produces_content_type := rs_produces_content_type r;
         rs_summary := rs_summary r;
         rs_description := rs_description r;
         rs_operation := rs_operation r;
         rs_blueprint := rs_blueprint r;
         rs_tags := rs_tags r;
         rs_hide := v;
         rs_produces_description := rs_produces_description r;
         rs_produces_examples := rs_produces_examples r;
         rs_headers := rs_headers r |}
  | Aproduces_description =>
      {| rs_consumes := rs_consumes r;
         rs_consumes_content_type := rs_consumes_content_type r;
         rs_produces := rs_produces r;
         rs_produces_content_type := rs_produces_content_type r;
         rs_summary := rs_summary r;
         rs_description := rs_description r;
         rs_operation := rs_operation r;
         rs_blueprint := rs_blueprint r;
         rs_tags := rs_tags r;
         rs_hide := rs_hide r;
         rs_produces_description := v;
         rs_produces_examples := rs_produces_examples r;
         rs_headers := rs_headers r |}
  | Aproduces_examples =>
      {| rs_consumes := rs_consumes r;
         rs_consumes_content_type := rs_consumes_content_type r;
         rs_produces := rs_produces r;
         rs_produces_content_type := rs_produces_content_type r;
         rs_summary := rs_summary r;
         rs_description := rs_description r;
         rs_operation := rs_operation r;
         rs_blueprint := rs_blueprint r;
         rs_tags := rs_tags r;
         rs_hide := rs_hide r;
         rs_produces_description := rs_produces_description r;
         rs_produces_examples := v;
         rs_headers := rs_headers r |}
  | Aheaders =>
      {| rs_consumes := rs_consumes r;
         rs_consumes_content_type := rs_consumes_content_type r;
         rs_produces := rs_produces r;
         rs_produces_content_type := rs_produces_content_type r;
         rs_summary := rs_summary r;
         rs_description := rs_description r;
         rs_operation := rs_operation r;
         rs_blueprint := rs_blueprint r;
         rs_tags := rs_tags r;
         rs_hide := rs_hide r;
         rs_produces_description := rs_produces_description r;
         rs_produces_examples := rs_produces_examples r;
         rs_headers := v |}
  end.

(** [route_spec.tags.append(name)] *)
Definition tags_append (r : RouteSpec) (name : PyVal) : RouteSpec :=
  {| rs_consumes := rs_consumes r;
     rs_consumes_content_type := rs_consumes_content_type r;
     rs_produces := rs_produces r;
     rs_produces_content_type := rs_produces_content_type r;
     rs_summary := rs_summary r;
     rs_description := rs_description r;
     rs_operation := rs_operation r;
     rs_blueprint := rs_blueprint r;
     rs_tags := rs_tags r ++ [name];
     rs_hide := rs_hide r;
     rs_produces_description := rs_produces_description r;
     rs_produces_examples := rs_produces_examples r;
     rs_headers := rs_headers r |}.

(** A handler is known by its identity. *)
Abbreviation Handler := nat.

(** [route_specs = defaultdict(RouteSpec)] *)
Abbreviation RouteSpecs := (gmap Handler RouteSpec).

(** [route_specs[func]]: a missing key is bound to a new [RouteSpec]
    first. *)
Definition getitem (route_specs : RouteSpecs) (func : Handler)
  : RouteSpec * RouteSpecs :=
  match route_specs !! func with
  | Some r => (r, route_specs)
  | None => (RouteSpec_init, <[func := RouteSpec_init]> route_specs)
  end.

(** What [route_specs[func]] evaluates to. *)
Definition spec_of (route_specs : RouteSpecs) (func : Handler) : RouteSpec :=
  (getitem route_specs func).1.

(** [route_specs[func].attr = v] *)
Definition assign (func : Handler) (attr : Attr) (v : PyVal)
  (route_specs : RouteSpecs) : RouteSpecs :=
  let '(r, route_specs) := getitem route_specs func in
  <[func := setattr r attr v]> route_specs.

(** [args[0] if len(args) == 1 else args] on the tuple [args] *)
Definition collapse (args : list PyVal) : PyVal :=
  match args with
  | [arg] => arg
  | _ => VTuple args
  end.

(** Each documenter returns [inner]; [inner func] is modelled by its
    effect on [route_specs] (it returns [func] itself). *)

Definition route
  (summary description consumes produces consumes_content_type
   produces_content_type hide headers : PyVal)
  (func : Handler) (route_specs : RouteSpecs) : RouteSpecs :=
  let '(route_spec, route_specs) := getitem route_specs func in
  let route_spec :=
    if is_not_None summary then setattr route_spec Asummary summary
    else route_spec in
  let route_spec :=
    if is_not_None description
    then setattr route_spec Adescription description else route_spec in
  let route_spec :=
    if is_not_None consumes then setattr route_spec Aconsumes consumes
    else route_spec in
  let route_spec :=
    if is_not_None produces then setattr route_spec Aproduces produces
    else route_spec in
  let route_spec :=
    if is_not_None consumes_content_type
    then setattr route_spec Aconsumes_content_type consumes_content_type
    else route_spec in
  let route_spec :=
    if is_not_None produces_content_type
    then setattr route_spec Aproduces_content_type produces_content_type
    else route_spec in
  let route_spec :=
    if is_not_None hide then setattr route_spec Ahide hide else route_spec in
  let route_spec :=
    if is_not_None headers then setattr route_spec Aheaders headers
    else route_spec in
  <[func := route_spec]> route_specs.

Definition summary (text : PyVal) (func : Handler)
  (route_specs : RouteSpecs) : RouteSpecs :=
  assign func Asummary text route_specs.

Definition description (text : PyVal) (func : Handler)
  (route_specs : RouteSpecs) : RouteSpecs :=
  assign func Adescription text route_specs.

(** [consumes]: positional [args], keyword [content_type=None] *)
Definition consumes (args : list PyVal) (content_type : PyVal)
  (func : Handler) (route_specs : RouteSpecs) : RouteSpecs :=
  if truthy (VTuple args) then
    let route_specs := assign func Aconsumes (collapse args) route_specs in
    assign func Aconsumes_content_type content_type route_specs
  else route_specs.

(** [produces]: positional [args], keywords [description=''],
    [content_type=None], [examples=None]; the defaults are the caller's. *)
Definition produces (args : list PyVal)
  (description content_type examples : PyVal)
  (func : Handler) (route_specs : RouteSpecs) : RouteSpecs :=
  if truthy (VTuple args) then
    let route_specs := assign func Aproduces (collapse args) route_specs in
    let route_specs :=
      assign func Aproduces_content_type content_type route_specs in
    let route_specs :=
      assign func Aproduces_description description route_specs in
    assign func Aproduces_examples examples route_specs
  else route_specs.

Definition tag (name : PyVal) (func : Handler)
  (route_specs : RouteSpecs) : RouteSpecs :=
  let '(r, route_specs) := getitem route_specs func in
  <[func := tags_append r name]> route_specs.

Definition hide (func : Handler) (route_specs : RouteSpecs) : RouteSpecs :=
  assign func Ahide (VBool true) route_specs.

Definition headers (args : list PyVal) (func : Handler)
  (route_specs : RouteSpecs) : RouteSpecs :=
  if truthy (VTuple args) then
    assign func Aheaders (collapse args) route_specs
  else route_specs.

(** The documenters as data, to quantify over them. *)
Inductive Annotation :=
  | Route (summary description consumes produces consumes_content_type
           produces_content_type hide headers : PyVal)
  | Summary (text : PyVal)
  | Description (text : PyVal)
  | Consumes (args : list PyVal) (content_type : PyVal)
  | Produces (args : list PyVal) (description content_type examples : PyVal)
  | Tag (name : PyVal)
  | Hide
  | Headers (args : list PyVal).

(** [annotation(func)] *)
Definition apply (a : Annotation) (func : Handler) (route_specs : RouteSpecs)
  : RouteSpecs :=
  match a with
  | Route s d c p cct pct h hd => route s d c p cct pct h hd func route_specs
  | Summary text => summary text func route_specs
  | Description text => description text func route_specs
  | Consumes args ct => consumes args ct func route_specs
  | Produces args d ct ex => produces args d ct ex func route_specs
  | Tag name => tag name func route_specs
  | Hide => hide func route_specs
  | Headers args => headers args func route_specs
  end.

(** The call gives an argument other than [None] (for the [description] of
    [produces], other than its default [''] too) for the attribute. *)
Definition supplies (a : Annotation) (attr : Attr) : bool :=
  match a, attr with
  | Route s _ _ _ _ _ _ _, Asummary => is_not_None s
  | Route _ d _ _ _ _ _ _, Adescription => is_not_None d
  | Route _ _ c _ _ _ _ _, Aconsumes => is_not_None c
  | Route _ _ _ p _ _ _ _, Aproduces => is_not_None p
  | Route _ _ _ _ cct _ _ _, Aconsumes_content_type => is_not_None cct
  | Route _ _ _ _ _ pct _ _, Aproduces_content_type => is_not_None pct
  | Route _ _ _ _ _ _ h _, Ahide => is_not_None h
  | Route _ _ _ _ _ _ _ hd, Aheaders => is_not_None hd
  | Summary _, Asummary => true
  | Description _, Adescription => true
  | Consumes args _, Aconsumes => truthy (VTuple args)
  | Consumes _ ct, Aconsumes_content_type => is_not_None ct
  | Produces args _ _ _, Aproduces => truthy (VTuple args)
  | Produces _ d _ _, Aproduces_description =>
      match d with
      | VNone => false
      | VStr s => negb (String.eqb s "")
      | _ => true
      end
  | Produces _ _ ct _, Aproduces_content_type => is_not_None ct
  | Produces _ _ _ ex, Aproduces_examples => is_not_None ex
  | Hide, Ahide => true
  | Headers args, Aheaders => truthy (VTuple args)
  | _, _ => false
  end.

(** The attributes the call assigns: [consumes] and [produces] assign their
    whole group as soon as a descriptor is given. *)
Definition writes (a : Annotation) (attr : Attr) : bool :=
  match a, attr with
  | Route _ _ _ _ _ _ _ _, _ => supplies a attr
  | Summary _, Asummary => true
  | Description _, Adescription => true
  | Consumes args _, (Aconsumes | Aconsumes_content_type) =>
      truthy (VTuple args)
  | Produces args _ _ _,
    (Aproduces | Aproduces_content_type | Aproduces_description
     | Aproduces_examples) => truthy (VTuple args)
  | Hide, Ahide => true
  | Headers args, Aheaders => truthy (VTuple args)
  | _, _ => false
  end.

(** The kinds of input the resolver tells apart. *)
Definition is_type_reference (v : PyVal) : bool :=
  match v with
  | VBuiltin _ | VFieldClass _ | VClass _ | VMetaClass _ => true
  | _ => false
  end.

Definition is_Field_instance (v : PyVal) : bool :=
  match v with VField _ => true | _ => false end.

Definition is_mapping (v : PyVal) : bool :=
  match v with VDict _ => true | _ => false end.

Definition is_sequence (v : PyVal) : bool :=
  match v with VList _ | VTuple _ | VStr _ => true | _ => false end.

(** [int], [str], [bool], [float], [date], [datetime] *)
Definition primitives : list Builtin :=
  [Bint; Bstr; Bbool; Bfloat; Bdate; Bdatetime].

(** What [Field.serialize] binds [key] to. *)
Definition Field_get (a : Attrs) (key : string) : option PyVal :=
  if decide (key = "name") then
    if truthy (f_name a) then Some (f_name a) else None
  else if decide (key = "description") then
    if truthy (f_description a) then Some (f_description a) else None
  else if decide (key = "required") then
    if is_not_None (f_required a) then Some (f_required a) else None
  else if decide (key = "default") then
    if is_not_None (f_default a) then Some (f_default a) else None
  else if decide (key = "enum") then
    if is_not_None (f_enum a) then Some (f_enum a) else None
  else if decide (key = "in") then
    if is_not_None (f_indata a) then Some (f_indata a) else None
  else None.

(** The keys a class of the hierarchy adds by itself, whatever the
    attributes. *)
Definition own_keys (c : FieldClass) : list string :=
  match c with
  | CField | CTuple => []
  | CInteger | CFloat => ["type"; "format"]
  | CFile | CString | CBoolean | CDate | CDateTime => ["type"]
  | CDictionary => ["type"; "properties"]
  | CList => ["type"; "items"]
  | CObject => ["$ref"]
  end.

(** [P] on the parts of an instance that the resolver goes into. *)
Definition Inst_Forall (P : PyVal -> Prop) (f : Inst) : Prop :=
  match f with
  | IDictionary _ fields => Forall (fun kv => P kv.2) fields
  | IList _ items => Forall P items
  | _ => True
  end.

(** The values without such parts. *)
Definition is_leaf (v : PyVal) : bool :=
  match v with
  | VList _ | VDict _ | VClass _ | VField _ => false
  | _ => true
  end.

(** The computation [m] keeps the property [P] of [definitions], whether it
    returns or raises. *)
Definition preserves {A} (P : Definitions -> Prop) (m : M A) : Prop :=
  forall defs, P defs -> P (m defs).1.


(** No user class lies on the way of the resolver through the value. *)
Fixpoint class_free (v : PyVal) : bool :=
  match v with
  | VClass _ => false
  | VList l => forallb class_free l
  | VDict d => forallb (fun kv => class_free kv.2) d
  | VField (IDictionary _ fields) => forallb (fun kv => class_free kv.2) fields
  | VField (IList _ items) => forallb class_free items
  | _ => true
  end.


(** The assignments of [route] on the record of the handler. *)
Definition route_update
  (summary description consumes produces consumes_content_type
   produces_content_type hide headers : PyVal) (route_spec : RouteSpec)
  : RouteSpec :=
  let route_spec :=
    if is_not_None summary then setattr route_spec Asummary summary
    else route_spec in
  let route_spec :=
    if is_not_None description
    then setattr route_spec Adescription description else route_spec in
  let route_spec :=
    if is_not_None consumes then setattr route_spec Aconsumes consumes
    else route_spec in
  let route_spec :=
    if is_not_None produces then setattr route_spec Aproduces produces
    else route_spec in
  let route_spec :=
    if is_not_None consumes_content_type
    then setattr route_spec Aconsumes_content_type consumes_content_type
    else route_spec in
  let route_spec :=
    if is_not_None produces_content_type
    then setattr route_spec Aproduces_content_type produces_content_type
    else route_spec in
  let route_spec :=
    if is_not_None hide then setattr route_spec Ahide hide else route_spec in
  let route_spec :=
    if is_not_None headers then setattr route_spec Aheaders headers
    else route_spec in
  route_spec.

(** What a documenter makes of the record of its handler; [None] when it
    does not go to [route_specs] at all. *)
Definition step (a : Annotation) (r : RouteSpec) : option RouteSpec :=
  match a with
  | Route s d c p cct pct h hd => Some (route_update s d c p cct pct h hd r)
  | Summary text => Some (setattr r Asummary text)
  | Description text => Some (setattr r Adescription text)
  | Consumes args ct =>
      if truthy (VTuple args) then
        Some (setattr (setattr r Aconsumes (collapse args))
                Aconsumes_content_type ct)
      else None
  | Produces args d ct ex =>
      if truthy (VTuple args) then
        Some (setattr
                (setattr
                   (setattr (setattr r Aproduces (collapse args))
                      Aproduces_content_type ct)
                   Aproduces_description d)
                Aproduces_examples ex)
      else None
  | Tag name => Some (tags_append r name)
  | Hide => Some (setattr r Ahide (VBool true))
  | Headers args =>
      if truthy (VTuple args) then Some (setattr r Aheaders (collapse args))
      else None
  end.

(** The value that the call assigns to the attribute, if it assigns it. *)
Definition assigned (a : Annotation) (attr : Attr) : option PyVal :=
  match a, attr with
  | Route s _ _ _ _ _ _ _, Asummary => if is_not_None s then Some s else None
  | Route _ d _ _ _ _ _ _, Adescription =>
      if is_not_None d then Some d else None
  | Route _ _ c _ _ _ _ _, Aconsumes => if is_not_None c then Some c else None
  | Route _ _ _ p _ _ _ _, Aproduces => if is_not_None p then Some p else None
  | Route _ _ _ _ cct _ _ _, Aconsumes_content_type =>
      if is_not_None cct then Some cct else None
  | Route _ _ _ _ _ pct _ _, Aproduces_content_type =>
      if is_not_None pct then Some pct else None
  | Route _ _ _ _ _ _ h _, Ahide => if is_not_None h then Some h else None
  | Route _ _ _ _ _ _ _ hd, Aheaders =>
      if is_not_None hd then Some hd else None
  | Summary text, Asummary => Some text
  | Description text, Adescription => Some text
  | Consumes args _, Aconsumes =>
      if truthy (VTuple args) then Some (collapse args) else None
  | Consumes args ct, Aconsumes_content_type =>
      if truthy (VTuple args) then Some ct else None
  | Produces args _ _ _, Aproduces =>
      if truthy (VTuple args) then Some (collapse args) else None
  | Produces args _ ct _, Aproduces_content_type =>
      if truthy (VTuple args) then Some ct else None
  | Produces args d _ _, Aproduces_description =>
      if truthy (VTuple args) then Some d else None
  | Produces args _ _ ex, Aproduces_examples =>
      if truthy (VTuple args) then Some ex else None
  | Hide, Ahide => Some (VBool true)
  | Headers args, Aheaders =>
      if truthy (VTuple args) then Some (collapse args) else None
  | _, _ => None
  end.

(** The documenter is [tag]. *)
Definition is_tag (a : Annotation) : bool :=
  match a with Tag _ => true | _ => false end.

(** A stack of documenters on one handler, applied first to last. *)
Definition apply_all (l : list Annotation) (func : Handler)
  (route_specs : RouteSpecs) : RouteSpecs :=
  foldl (fun rs a => apply a func rs) route_specs l.

(** The class of the hierarchy that the resolver instantiates for a
    builtin class. *)
Definition class_of_builtin (b : Builtin) : FieldClass :=
  match b with
  | Bdict => CDictionary
  | Blist => CList
  | Bint => CInteger
  | Bstr => CString
  | Bbool => CBoolean
  | Bfloat => CFloat
  | Bdate => CDate
  | Bdatetime => CDateTime
  end.

(** Sample inputs. *)
Definition User : Class :=
  mkClass 1 "User"
    [("__module__", VStr "models"); ("id", VBuiltin Bint);
     ("name", VBuiltin Bstr)].

Definition Broken : Class :=
  mkClass 2 "Broken" [("owner", VClass User); ("tags", VBuiltin Blist)].

(** * Properties *)

(** ** Dictionaries *)

Section DictFacts.
Context {K V : Type} `{EqDecision K}.
Implicit Types (d : list (K * V)) (k : K) (v : V).

Lemma dict_get_set_eq d k v : dict_get (dict_set d k v) k = Some v.
Proof.
  induction d as [|[k' v'] d IH]; simpl.
  - by rewrite decide_True.
  - destruct (decide (k' = k)) as [->|Hne]; simpl.
    + by rewrite decide_True.
    + by rewrite decide_False.
Qed.

Lemma dict_get_set_ne d k k' v :
  k ≠ k' → dict_get (dict_set d k v) k' = dict_get d k'.
Proof.
  intros Hne. induction d as [|[k0 v0] d IH]; simpl.
  - by rewrite decide_False.
  - destruct (decide (k0 = k)) as [->|Hne0]; simpl.
    + by rewrite !decide_False.
    + by rewrite IH.
Qed.

Lemma dict_get_set d k k' v :
  dict_get (dict_set d k v) k' =
  if decide (k = k') then Some v else dict_get d k'.
Proof.
  destruct (decide (k = k')) as [->|Hne].
  - apply dict_get_set_eq.
  - by apply dict_get_set_ne.
Qed.

(** Writing a key keeps the keys in place and adds at most the new one at
    the end. *)
Lemma dict_set_keys d k v :
  (dict_set d k v).*1 = if dict_mem d k then d.*1 else d.*1 ++ [k].
Proof.
  unfold dict_mem. induction d as [|[k' v'] d IH]; csimpl; [done|].
  destruct (decide (k' = k)) as [->|Hne]; csimpl; [done|].
  rewrite IH. by destruct (dict_get d k).
Qed.

Lemma dict_mem_elem_of d k : dict_mem d k = true ↔ k ∈ d.*1.
Proof.
  unfold dict_mem. induction d as [|[k' v'] d IH]; simpl.
  - split; [done|]. by intros ?%elem_of_nil.
  - rewrite elem_of_cons. destruct (decide (k' = k)) as [->|Hne].
    + split; [by left|done].
    + rewrite IH. split; [by right|]. by intros [?|?].
Qed.

Lemma dict_set_NoDup d k v : NoDup d.*1 → NoDup (dict_set d k v).*1.
Proof.
  intros Hd. rewrite dict_set_keys.
  destruct (dict_mem d k) eqn:Hm; [done|].
  apply NoDup_app. split_and!; [done| |apply NoDup_singleton].
  intros x Hx ->%list_elem_of_singleton.
  apply dict_mem_elem_of in Hx. congruence.
Qed.

Lemma dict_count_absent d k : dict_mem d k = false → dict_count d k = 0.
Proof.
  unfold dict_count, dict_mem. induction d as [|[k' v'] d IH]; simpl; [done|].
  destruct (decide (k' = k)) as [->|Hne]; [done|].
  intros Hd. rewrite filter_cons_False; [|done]. by apply IH.
Qed.

(** In a dictionary a bound key has exactly one binding. *)
Lemma dict_count_present d k :
  NoDup d.*1 → dict_mem d k = true → dict_count d k = 1.
Proof.
  unfold dict_count. induction d as [|[k' v'] d IH]; simpl.
  - by unfold dict_mem.
  - intros [Hk' Hd]%NoDup_cons Hm.
    destruct (decide (k' = k)) as [->|Hne].
    + rewrite filter_cons_True; [|done]. simpl. f_equal.
      apply dict_count_absent.
      destruct (dict_mem d k) eqn:E; [|done].
      by apply dict_mem_elem_of in E.
    + rewrite filter_cons_False; [|done]. apply IH; [done|].
      unfold dict_mem in *. simpl in Hm. by rewrite decide_False in Hm.
Qed.

Lemma dict_mem_set d k v : dict_mem (dict_set d k v) k = true.
Proof. unfold dict_mem. by rewrite dict_get_set_eq. Qed.

(** [{**d1, **d2}[k]]: the last binding of [k] in [d2], or else that of
    [d1]. *)
Lemma dict_get_update d1 d2 k :
  dict_get (dict_update d1 d2) k =
  match dict_get (reverse d2) k with
  | Some v => Some v
  | None => dict_get d1 k
  end.
Proof.
  unfold dict_update. revert d1.
  induction d2 as [|[k2 v2] d2 IH] using rev_ind; intros d1; [done|].
  rewrite foldl_app, reverse_app, reverse_singleton. simpl.
  rewrite dict_get_set. destruct (decide (k2 = k)) as [->|Hne]; [done|].
  apply IH.
Qed.

Lemma dict_get_app d1 d2 k :
  dict_get (d1 ++ d2) k =
  match dict_get d1 k with Some v => Some v | None => dict_get d2 k end.
Proof.
  induction d1 as [|[k' v'] d1 IH]; simpl; [done|].
  by destruct (decide (k' = k)).
Qed.

Lemma dict_get_None d k : dict_get d k = None ↔ k ∉ d.*1.
Proof.
  rewrite <-dict_mem_elem_of. unfold dict_mem.
  destruct (dict_get d k); naive_solver.
Qed.

(** With one binding per key the order of the bindings does not matter
    for lookups. *)
Lemma dict_get_reverse d k : NoDup d.*1 → dict_get (reverse d) k = dict_get d k.
Proof.
  induction d as [|[k' v'] d IH]; simpl; [done|].
  intros [Hk' Hd]%NoDup_cons. rewrite reverse_cons, dict_get_app, IH by done.
  simpl. destruct (decide (k' = k)) as [->|Hne].
  - apply dict_get_None in Hk'. by rewrite Hk'.
  - by destruct (dict_get d k).
Qed.

(** The first binding of a dictionary stays first under updates. *)
Lemma dict_set_head d k v k0 v0 :
  head (dict_set ((k0, v0) :: d) k v).*1 = Some k0.
Proof. simpl. by destruct (decide (k0 = k)) as [->|]. Qed.

End DictFacts.

(** ** [Field.serialize] *)

Lemma Field_serialize_get (a : Attrs) (key : string) :
  dict_get (Field_serialize a) key = Field_get a key.
Proof.
  unfold Field_serialize, Field_get.
  destruct (truthy (f_name a)), (truthy (f_description a)),
    (is_not_None (f_required a)), (is_not_None (f_default a)),
    (is_not_None (f_enum a)), (is_not_None (f_indata a));
    simpl; repeat case_decide; simplify_eq; done.
Qed.

Lemma Field_serialize_NoDup (a : Attrs) : NoDup (Field_serialize a).*1.
Proof.
  unfold Field_serialize.
  destruct (truthy (f_name a)), (truthy (f_description a)),
    (is_not_None (f_required a)), (is_not_None (f_default a)),
    (is_not_None (f_enum a)), (is_not_None (f_indata a));
    simpl; apply (bool_decide_unpack _); vm_compute; exact I.
Qed.

(** The keys written by [Field.serialize] are among its six. *)
Lemma Field_get_keys (a : Attrs) (key : string) (v : PyVal) :
  Field_get a key = Some v →
  key ∈ ["name"; "description"; "required"; "default"; "enum"; "in"].
Proof.
  unfold Field_get. repeat case_decide; subst; try done; intros _; set_solver.
Qed.

(** A subclass dictionary merged with [super().serialize()]. *)
Lemma merge_get (own : Dict) (a : Attrs) (key : string) :
  dict_get (dict_update own (Field_serialize a)) key =
  match Field_get a key with
  | Some v => Some v
  | None => dict_get own key
  end.
Proof.
  rewrite dict_get_update, dict_get_reverse by apply Field_serialize_NoDup.
  by rewrite Field_serialize_get.
Qed.

(** ** The monad *)

Lemma bind_ret {A B} (a : A) (k : A -> M B) defs :
  bind (ret a) k defs = k a defs.
Proof. done. Qed.

Lemma bind_Ok {A B} (m : M A) (k : A -> M B) defs defs' b :
  bind m k defs = (defs', Ok b) →
  ∃ defs1 a, m defs = (defs1, Ok a) ∧ k a defs1 = (defs', Ok b).
Proof.
  unfold bind. destruct (m defs) as [defs1 [a|e]]; [eauto|done].
Qed.

(** ** Constructors *)

Lemma Dictionary_init_dict (d : Dict) (a : Attrs) :
  Dictionary_init (Some d) a = IDictionary a d.
Proof. unfold Dictionary_init. by destruct d. Qed.

Lemma List_init_list (l : list PyVal) (a : Attrs) :
  List_init (VList l) a = IList a l.
Proof. unfold List_init, py_or. by destruct l. Qed.

Lemma List_init_None (a : Attrs) : List_init VNone a = IList a [].
Proof. done. Qed.

(** A value that is not a list, and is true, becomes the only item. *)
Lemma List_init_single (v : PyVal) (a : Attrs) :
  truthy v = true → (∀ l, v ≠ VList l) → List_init v a = IList a [v].
Proof.
  intros Ht Hl. unfold List_init, py_or. rewrite Ht.
  destruct v; try done. by destruct (Hl l).
Qed.

(** ** Field attributes in the serialization *)

(** C10: [Field.serialize] tests [name] and [description] by truth value, so
    the empty string is left out, and tests [required], [default], [enum]
    and [indata] against [None] only, so [required=False] is written. *)
Theorem Field_serialize_truthiness (a : Attrs) :
  (∀ description required default enum indata,
     dict_get
       (Field_serialize
          (Field_init description required (VStr "") default enum indata))
       "name" = None) ∧
  (∀ required name default enum indata,
     dict_get
       (Field_serialize
          (Field_init (VStr "") required name default enum indata))
       "description" = None) ∧
  dict_get (Field_serialize a) "name" =
    (if truthy (f_name a) then Some (f_name a) else None) ∧
  dict_get (Field_serialize a) "description" =
    (if truthy (f_description a) then Some (f_description a) else None) ∧
  dict_get (Field_serialize a) "required" =
    match f_required a with VNone => None | v => Some v end ∧
  dict_get (Field_serialize a) "default" =
    match f_default a with VNone => None | v => Some v end ∧
  dict_get (Field_serialize a) "enum" =
    match f_enum a with VNone => None | v => Some v end ∧
  dict_get (Field_serialize a) "in" =
    match f_indata a with VNone => None | v => Some v end ∧
  (∀ description name default enum indata,
     dict_get
       (Field_serialize
          (Field_init description (VBool false) name default enum indata))
       "required" = Some (VBool false)).
Proof.
  split_and!; intros; rewrite Field_serialize_get; unfold Field_get; simpl;
    try done.
  - by destruct (f_required a).
  - by destruct (f_default a).
  - by destruct (f_enum a).
  - by destruct (f_indata a).
Qed.

(** C8, on the code: [Integer] and [Float] accept [enum] and never
    serialize it, whatever its value; [String], built on [Field.__init__],
    does. *)
Theorem Integer_Float_drop_enum
  (description required name default enum minimum maximum : PyVal)
  (defs : Definitions) :
  (∃ d, serialize
          (Integer_init description required name default enum minimum
             maximum) defs = (defs, Ok d) ∧
        dict_get d "enum" = None) ∧
  (∃ d, serialize
          (Float_init description required name default enum minimum maximum)
          defs = (defs, Ok d) ∧
        dict_get d "enum" = None) ∧
  serialize
    (Integer_init VNone VNone VNone VNone (VList [VInt 1; VInt 2]) VNone
       VNone) [] =
    ([], Ok [("type", VStr "integer"); ("format", VStr "int64")]) ∧
  serialize
    (String_init
       (Field_init VNone VNone VNone VNone (VList [VInt 1; VInt 2]) VNone))
    [] =
    ([], Ok [("type", VStr "string"); ("enum", VList [VInt 1; VInt 2])]).
Proof.
  split_and!; [| |done|done]; eexists; (split; [reflexivity|]);
    unfold Integer_serialize, Float_serialize;
    rewrite merge_get; unfold Field_get; simpl;
    rewrite dict_get_update; unfold addition;
    by destruct (is_not_None minimum), (is_not_None maximum).
Qed.

(** ** The resolver on classes and on other objects *)

(** C5: on [int], [str], [bool], [float], [date] and [datetime] the resolver
    returns a dictionary with a ["type"] key, keys among ["type"] and
    ["format"] only, hence neither ["properties"] nor ["items"], and leaves
    [definitions] as it was. *)
Theorem primitives_resolve (defs : Definitions) :
  Forall
    (fun b =>
       ∃ d, serialize_schema (VBuiltin b) defs = (defs, Ok d) ∧
            dict_mem d "type" = true ∧
            dict_mem d "properties" = false ∧
            dict_mem d "items" = false ∧
            d.*1 ⊆ ["type"; "format"])
    primitives.
Proof.
  unfold primitives.
  repeat (apply List.Forall_cons || apply List.Forall_nil);
    (eexists; split; [reflexivity|]); (split_and!; [done..|]);
    intros k; simpl; rewrite !elem_of_cons, ?elem_of_nil; tauto.
Qed.

(** C6: an input that is no class, no instance of the hierarchy, no dict
    and no sequence resolves to the empty dictionary, without exception and
    without touching [definitions]. *)
Theorem unrecognized_resolves_empty (schema : PyVal) (defs : Definitions) :
  is_type_reference schema = false →
  is_Field_instance schema = false →
  is_mapping schema = false →
  is_sequence schema = false →
  serialize_schema schema defs = (defs, Ok []).
Proof. destruct schema; done. Qed.

Lemma unrecognized_resolves_empty_witness :
  is_type_reference (VInt 5) = false ∧
  is_Field_instance (VInt 5) = false ∧
  is_mapping (VInt 5) = false ∧
  is_sequence (VInt 5) = false ∧
  serialize_schema (VInt 5) [] = ([], Ok []).
Proof.
  split_and!; [reflexivity..|].
  apply (unrecognized_resolves_empty (VInt 5) []); reflexivity.
Defined.

(** ** Lists *)

(** C2, on the code: without items [List.serialize] raises
    [UnboundLocalError] ([items] is never bound), and so does the resolver
    on [list] and on [[]]; with one item the items schema is what the
    resolver gives for it; with more it is the serialization of
    [Tuple(items)], whose first positional parameter is [description]. *)
Theorem List_serialize_cases (a : Attrs) (defs : Definitions) :
  serialize (List_init (VList []) a) defs = (defs, Raise UnboundLocalError) ∧
  serialize (List_init VNone a) defs = (defs, Raise UnboundLocalError) ∧
  serialize_schema (VBuiltin Blist) defs = (defs, Raise UnboundLocalError) ∧
  serialize_schema (VFieldClass CList) defs =
    (defs, Raise UnboundLocalError) ∧
  serialize_schema (VList []) defs = (defs, Raise UnboundLocalError) ∧
  (∀ X,
     serialize (List_init (VList [X]) a) defs =
     match serialize_schema X defs with
     | (defs', Ok items) =>
         (defs', Ok [("type", VStr "array"); ("items", VDict items)])
     | (defs', Raise e) => (defs', Raise e)
     end) ∧
  (∀ X Y rest,
     serialize (List_init (VList (X :: Y :: rest)) a) defs =
     (defs,
      Ok [("type", VStr "array");
          ("items",
           VDict
             (Tuple_serialize
                (Field_init (VList (X :: Y :: rest)) VNone VNone VNone VNone
                   VNone)))]) ∧
     Tuple_serialize
       (Field_init (VList (X :: Y :: rest)) VNone VNone VNone VNone VNone) =
     [("description", VList (X :: Y :: rest))]).
Proof.
  split_and!; done.
Qed.





(** ** The merge with [super().serialize()] *)

(** X1: Every [serialize] but that of [List] writes the attributes that
    [Field.serialize] writes, with the same values. *)
Lemma serialize_merges_attrs (f : Inst) (defs defs' : Definitions) (d : Dict)
  (key : string) (v : PyVal) :
  class_of f ≠ CList →
  serialize f defs = (defs', Ok d) →
  Field_get (attrs_of f) key = Some v →
  dict_get d key = Some v.
Proof.
  intros Hc Hs Hk. unfold serialize in Hs.
  destruct f as [a|a mi ma|a|a|a mi ma|a|a|a|a|a fields|a items|o];
    simpl in *; [..|done|].
  all: try (apply bind_Ok in Hs as (defs1 & props & _ & Hs); unfold ret in Hs).
  all: injection Hs as <- <-.
  all: unfold Integer_serialize, File_serialize, String_serialize,
         Float_serialize, Boolean_serialize, Tuple_serialize, Date_serialize,
         DateTime_serialize, Object_serialize.
  all: by rewrite ?merge_get, ?Field_serialize_get, Hk.
Qed.

(** C4, on the code: [List.serialize] does not look at the attributes of
    [Field]; a [List] named ["x"] serializes without ["name"], which
    [Field.serialize] writes for the same attributes. *)
Theorem List_serialize_drops_attrs :
  (∀ (a : Attrs) items defs,
     serialize (IList a items) defs = serialize (IList no_attrs items) defs) ∧
  let a := Field_init VNone VNone (VStr "x") VNone VNone VNone in
  serialize (List_init (VBuiltin Bint) a) [] =
    ([], Ok [("type", VStr "array");
             ("items",
              VDict [("type", VStr "integer"); ("format", VStr "int64")])]) ∧
  Field_serialize a = [("name", VStr "x")] ∧
  serialize (String_init a) [] =
    ([], Ok [("type", VStr "string"); ("name", VStr "x")]).
Proof. done. Qed.

(** ** Route documenters *)

Lemma spec_of_lookup (route_specs : RouteSpecs) (func : Handler) :
  spec_of route_specs func = default RouteSpec_init (route_specs !! func).
Proof. unfold spec_of, getitem. by destruct (route_specs !! func). Qed.

Lemma spec_of_insert (route_specs : RouteSpecs) (func g : Handler) r :
  spec_of (<[func := r]> route_specs) g =
  if decide (func = g) then r else spec_of route_specs g.
Proof.
  rewrite !spec_of_lookup, lookup_insert. by destruct (decide (func = g)).
Qed.

(** A handler that no documenter has touched yet reads as a new
    [RouteSpec]. *)
Lemma spec_of_fresh (route_specs : RouteSpecs) (func : Handler) :
  route_specs !! func = None → spec_of route_specs func = RouteSpec_init.
Proof. intros H. by rewrite spec_of_lookup, H. Qed.

(** Writing through [route_specs[func]] replaces the record of [func]. *)
Lemma getitem_insert (route_specs : RouteSpecs) (func : Handler) r :
  <[func := r]> (getitem route_specs func).2 = <[func := r]> route_specs.
Proof.
  unfold getitem. destruct (route_specs !! func); [done|].
  apply insert_insert_eq.
Qed.

Lemma assign_insert func attr v (route_specs : RouteSpecs) :
  assign func attr v route_specs =
  <[func := setattr (spec_of route_specs func) attr v]> route_specs.
Proof.
  unfold assign, spec_of.
  destruct (getitem route_specs func) as [r rs'] eqn:E.
  replace rs' with (getitem route_specs func).2 by by rewrite E.
  apply getitem_insert.
Qed.

Lemma tag_insert name func (route_specs : RouteSpecs) :
  tag name func route_specs =
  <[func := tags_append (spec_of route_specs func) name]> route_specs.
Proof.
  unfold tag, spec_of.
  destruct (getitem route_specs func) as [r rs'] eqn:E.
  replace rs' with (getitem route_specs func).2 by by rewrite E.
  apply getitem_insert.
Qed.

Lemma spec_of_assign func attr v (route_specs : RouteSpecs) :
  spec_of (assign func attr v route_specs) func =
  setattr (spec_of route_specs func) attr v.
Proof. rewrite assign_insert, spec_of_insert. by rewrite decide_True. Qed.

Lemma spec_of_tag name func (route_specs : RouteSpecs) :
  spec_of (tag name func route_specs) func =
  tags_append (spec_of route_specs func) name.
Proof. rewrite tag_insert, spec_of_insert. by rewrite decide_True. Qed.

(** X13: The documenters write the record of their handler only. *)
Lemma apply_other (a : Annotation) (func g : Handler)
  (route_specs : RouteSpecs) :
  func ≠ g → spec_of (apply a func route_specs) g = spec_of route_specs g.
Proof.
  intros Hne.
  assert (Hassign : ∀ attr v rs,
    spec_of (assign func attr v rs) g = spec_of rs g).
  { intros. rewrite assign_insert, spec_of_insert. by rewrite decide_False. }
  destruct a; simpl;
    unfold summary, description, consumes, produces, hide, headers;
    repeat case_match; rewrite ?Hassign; try done.
  - unfold route. destruct (getitem route_specs func) as [r rs'] eqn:E.
    replace rs' with (getitem route_specs func).2 by by rewrite E.
    rewrite getitem_insert, spec_of_insert. by rewrite decide_False.
  - rewrite tag_insert, spec_of_insert. by rewrite decide_False.
Qed.

Lemma getattr_setattr (r : RouteSpec) (attr attr' : Attr) (v : PyVal) :
  getattr (setattr r attr v) attr' =
  if decide (attr = attr') then v else getattr r attr'.
Proof. by destruct attr, attr'. Qed.

Lemma rs_tags_setattr (r : RouteSpec) (attr : Attr) (v : PyVal) :
  rs_tags (setattr r attr v) = rs_tags r.
Proof. by destruct attr. Qed.

Lemma getattr_tags_append (r : RouteSpec) (attr : Attr) (name : PyVal) :
  getattr (tags_append r name) attr = getattr r attr.
Proof. by destruct attr. Qed.

(** C9: [consumes] with one descriptor stores that descriptor, with two or
    more stores the tuple of all of them in order, and with none leaves
    [route_specs] as it is; [headers] follows the same rule. *)
Theorem consumes_headers_collapse (func : Handler) (route_specs : RouteSpecs)
  (d d1 d2 content_type : PyVal) (rest : list PyVal) :
  getattr (spec_of (consumes [d] content_type func route_specs) func)
    Aconsumes = d ∧
  getattr
    (spec_of (consumes (d1 :: d2 :: rest) content_type func route_specs) func)
    Aconsumes = VTuple (d1 :: d2 :: rest) ∧
  consumes [] content_type func route_specs = route_specs ∧
  getattr (spec_of (headers [d] func route_specs) func) Aheaders = d ∧
  getattr (spec_of (headers (d1 :: d2 :: rest) func route_specs) func)
    Aheaders = VTuple (d1 :: d2 :: rest) ∧
  headers [] func route_specs = route_specs.
Proof.
  unfold consumes, headers. simpl.
  split_and!; try done;
    by rewrite !spec_of_assign, ?getattr_setattr.
Qed.

(** C7: on a handler without tags so far, [summary(A)], [tag(x)], [tag(y)]
    give summary [A] and tags [[x, y]]; [description(B)] applied next sets
    the description and keeps both. *)
Theorem annotations_compose (func : Handler) (route_specs : RouteSpecs)
  (A x y B : PyVal) :
  rs_tags (spec_of route_specs func) = [] →
  let rs1 := tag y func (tag x func (summary A func route_specs)) in
  let rs2 := description B func rs1 in
  rs_summary (spec_of rs1 func) = A ∧
  rs_tags (spec_of rs1 func) = [x; y] ∧
  rs_description (spec_of rs2 func) = B ∧
  rs_summary (spec_of rs2 func) = A ∧
  rs_tags (spec_of rs2 func) = [x; y].
Proof.
  intros Htags. simpl. unfold summary, description.
  rewrite !spec_of_assign, !spec_of_tag, !spec_of_assign. simpl.
  rewrite Htags. done.
Qed.

Lemma annotations_compose_witness :
  rs_tags (spec_of (∅ : RouteSpecs) 7) = [] ∧
  let rs1 :=
    tag (VStr "y") 7 (tag (VStr "x") 7 (summary (VStr "A") 7 ∅)) in
  let rs2 := description (VStr "B") 7 rs1 in
  rs_summary (spec_of rs1 7) = VStr "A" ∧
  rs_tags (spec_of rs1 7) = [VStr "x"; VStr "y"] ∧
  rs_description (spec_of rs2 7) = VStr "B" ∧
  rs_summary (spec_of rs2 7) = VStr "A" ∧
  rs_tags (spec_of rs2 7) = [VStr "x"; VStr "y"].
Proof.
  split; [reflexivity|].
  apply (annotations_compose 7 ∅ (VStr "A") (VStr "x") (VStr "y") (VStr "B")).
  reflexivity.
Defined.

(** In general the two tags are appended to those already there. *)
Lemma tags_accumulate (func : Handler) (route_specs : RouteSpecs)
  (A x y : PyVal) :
  rs_tags
    (spec_of (tag y func (tag x func (summary A func route_specs))) func) =
  rs_tags (spec_of route_specs func) ++ [x; y].
Proof.
  unfold summary. rewrite !spec_of_tag, spec_of_assign.
  generalize (setattr (spec_of route_specs func) Asummary A),
    (rs_tags_setattr (spec_of route_specs func) Asummary A).
  intros r <-. simpl. by rewrite <-app_assoc.
Qed.

(** C3 as stated fails: after [consumes(int,
    content_type="application/json")], the call [consumes(str)] gives no
    content type and resets [consumes_content_type] to [None]. *)
Lemma frame_of_supplied_counterexample :
  let route_specs : RouteSpecs :=
    apply (Consumes [VBuiltin Bint] (VStr "application/json")) 0 ∅ in
  let a := Consumes [VBuiltin Bstr] VNone in
  supplies a Aconsumes_content_type = false ∧
  getattr (spec_of route_specs 0) Aconsumes_content_type =
    VStr "application/json" ∧
  getattr (spec_of (apply a 0 route_specs) 0) Aconsumes_content_type = VNone.
Proof.
  cbv zeta. split_and!; [reflexivity|..]; unfold apply, consumes;
    cbn [truthy length Nat.eqb negb];
    by rewrite !spec_of_assign, !getattr_setattr.
Qed.

Lemma getattr_cond (c : bool) (r : RouteSpec) (attr' attr : Attr)
  (v : PyVal) :
  getattr (if c then setattr r attr' v else r) attr =
  if c && bool_decide (attr' = attr) then v else getattr r attr.
Proof.
  destruct c; simpl; [|done]. rewrite getattr_setattr.
  destruct (decide (attr' = attr));
    [by rewrite bool_decide_true|by rewrite bool_decide_false].
Qed.

(** C3, amended: a documenter changes no attribute outside those it
    assigns ([writes]); [consumes] and [produces] called with a descriptor
    assign their whole group to the arguments of the call, whether given or
    not. *)
Theorem annotation_frame (a : Annotation) (func : Handler) (attr : Attr)
  (route_specs : RouteSpecs) :
  writes a attr = false →
  getattr (spec_of (apply a func route_specs) func) attr =
    getattr (spec_of route_specs func) attr ∧
  (∀ args content_type,
     truthy (VTuple args) = true →
     getattr (spec_of (consumes args content_type func route_specs) func)
       Aconsumes_content_type = content_type) ∧
  (∀ args description content_type examples,
     truthy (VTuple args) = true →
     let r :=
       spec_of
         (produces args description content_type examples func route_specs)
         func in
     getattr r Aproduces_content_type = content_type ∧
     getattr r Aproduces_description = description ∧
     getattr r Aproduces_examples = examples).
Proof.
  intros Hw. split_and!.
  - destruct a; unfold writes, apply in *.
    + unfold route. destruct (getitem route_specs func) as [r rs'] eqn:E.
      replace rs' with (getitem route_specs func).2 by by rewrite E.
      rewrite getitem_insert, spec_of_insert, decide_True by done.
      replace r with (spec_of route_specs func)
        by (unfold spec_of; by rewrite E).
      cbv zeta. rewrite !getattr_cond.
      by destruct attr; simpl in Hw; rewrite ?Hw; cbn; rewrite ?andb_false_r.
    + unfold summary. rewrite spec_of_assign, getattr_setattr.
      by destruct attr.
    + unfold description. rewrite spec_of_assign, getattr_setattr.
      by destruct attr.
    + unfold consumes. destruct (truthy (VTuple args)); [|done].
      rewrite !spec_of_assign, !getattr_setattr. by destruct attr.
    + unfold produces. destruct (truthy (VTuple args)); [|done].
      rewrite !spec_of_assign, !getattr_setattr. by destruct attr.
    + by rewrite spec_of_tag, getattr_tags_append.
    + unfold hide. rewrite spec_of_assign, getattr_setattr. by destruct attr.
    + unfold headers. destruct (truthy (VTuple args)); [|done].
      rewrite !spec_of_assign, !getattr_setattr. by destruct attr.
  - intros args ct Ht. unfold consumes. rewrite Ht.
    by rewrite !spec_of_assign, !getattr_setattr.
  - intros args d ct ex Ht. unfold produces. rewrite Ht. cbv zeta.
    by rewrite !spec_of_assign, !getattr_setattr.
Qed.

Lemma annotation_frame_witness :
  let route_specs : RouteSpecs := summary (VStr "A") 0 ∅ in
  let a := Consumes [VBuiltin Bstr] VNone in
  writes a Asummary = false ∧
  getattr (spec_of (apply a 0 route_specs) 0) Asummary =
    getattr (spec_of route_specs 0) Asummary.
Proof.
  cbv zeta. split; [reflexivity|].
  exact (proj1 (annotation_frame (Consumes [VBuiltin Bstr] VNone) 0 Asummary
                  (summary (VStr "A") 0 ∅) eq_refl)).
Defined.

(** ** Induction on values, along the resolver *)

Lemma PyVal_resolver_ind (P : PyVal → Prop) :
  (∀ l, Forall P l → P (VList l)) →
  (∀ d, Forall (fun kv => P kv.2) d → P (VDict d)) →
  (∀ c, Forall (fun kv => P kv.2) (cls_dict c) → P (VClass c)) →
  (∀ f, Inst_Forall P f → P (VField f)) →
  (∀ v, is_leaf v = true → P v) →
  ∀ v, P v.
Proof.
  intros HList HDict HClass HField Hleaf. fix IH 1.
  intros [ |b|z|s|l|l|d|b|c|c|c|f|i t]; try (by apply Hleaf).
  - apply HList. induction l as [|x l IHl]; constructor; [apply IH|apply IHl].
  - apply HDict.
    induction d as [|[k x] d IHd]; constructor; [apply IH|apply IHd].
  - apply HClass. destruct c as [i n d]. simpl.
    induction d as [|[k x] d IHd]; constructor; [apply IH|apply IHd].
  - apply HField. destruct f as [| | | | | | | | |a d|a l|]; simpl; try done.
    + induction d as [|[k x] d IHd]; constructor; [apply IH|apply IHd].
    + induction l as [|x l IHl]; constructor; [apply IH|apply IHl].
Qed.

(** ** What the resolver does to [definitions] *)

Section Preservation.
Variable P : Definitions → Prop.
Hypothesis P_set : ∀ defs k e, P defs → P (dict_set defs k e).

Lemma preserves_ret {A} (a : A) : preserves P (ret a).
Proof. by intros defs. Qed.

Lemma preserves_raise {A} (e : PyExc) : preserves P (raise (A:=A) e).
Proof. by intros defs. Qed.

Lemma preserves_bind {A B} (m : M A) (k : A → M B) :
  preserves P m → (∀ a, preserves P (k a)) → preserves P (bind m k).
Proof.
  intros Hm Hk defs Hd. unfold bind. specialize (Hm defs Hd).
  destruct (m defs) as [defs1 [a|e]]; [by apply Hk|done].
Qed.

Section PreservationMethods.
Variable rec : PyVal → M Dict.

Lemma preserves_properties keep (fields acc : Dict) :
  Forall (fun kv => preserves P (rec kv.2)) fields →
  preserves P (properties rec keep fields acc).
Proof.
  intros Hf. revert acc.
  induction Hf as [|[key schema] fields Hs Hf IH]; intros acc; simpl.
  - apply preserves_ret.
  - destruct (keep key); [|apply IH].
    apply preserves_bind; [done|]. intros v. apply IH.
Qed.

Lemma preserves_serialize_with (f : Inst) :
  Inst_Forall (fun v => preserves P (rec v)) f →
  preserves P (serialize_with rec f).
Proof.
  destruct f as [| | | | | | | | |a fields|a items|]; simpl;
    try (intros _; apply preserves_ret).
  - intros Hf. apply preserves_bind.
    + by apply preserves_properties.
    + intros props. apply preserves_ret.
  - intros Hi. unfold List_serialize_with.
    destruct Hi as [|item [|item' items] Hitem Hitems].
    + apply preserves_raise.
    + apply preserves_bind; [done|]. intros d. apply preserves_ret.
    + apply preserves_ret.
Qed.

Lemma preserves_Object_init_with (cls : Class) (a : Attrs) object_name :
  Forall (fun kv => preserves P (rec kv.2)) (cls_dict cls) →
  preserves P (Object_init_with rec cls a object_name).
Proof.
  intros Hc defs Hd. unfold Object_init_with.
  destruct (dict_mem defs (cls_id cls)); simpl; [done|].
  assert (Hdef : preserves P (Object_definition_with rec a cls)).
  { apply preserves_bind; [by apply preserves_properties|].
    intros props. apply preserves_ret. }
  specialize (Hdef defs Hd). unfold bind.
  destruct (Object_definition_with rec a cls defs) as [defs' [d|e]];
    simpl in *; [by apply P_set|done].
Qed.
End PreservationMethods.

Lemma preserves_serialize_schema (schema : PyVal) :
  preserves P (serialize_schema schema).
Proof.
  induction schema as [l IH|d IH|c IH|f IH|v Hv] using PyVal_resolver_ind.
  - simpl. by apply (preserves_serialize_with _ (IList no_attrs l)).
  - simpl. by apply (preserves_serialize_with _ (IDictionary no_attrs d)).
  - simpl. apply preserves_bind.
    + by apply preserves_Object_init_with.
    + intros self. apply preserves_ret.
  - simpl. by apply preserves_serialize_with.
  - destruct v as [ |b|z|s|l|l|d|b|c|c|c|f|i t]; try done;
      try apply (preserves_ret (A:=Dict)).
    + by destruct b; intros defs Hd.
    + by destruct c; intros defs Hd.
Qed.

Lemma preserves_Object_init (cls : Class) (a : Attrs) object_name :
  preserves P (Object_init cls a object_name).
Proof.
  apply preserves_Object_init_with, Forall_forall.
  intros kv _. apply preserves_serialize_schema.
Qed.
End Preservation.

(** [definitions] stays a dictionary. *)
Lemma serialize_schema_NoDup (schema : PyVal) (defs : Definitions) :
  NoDup defs.*1 → NoDup (serialize_schema schema defs).1.*1.
Proof.
  apply (preserves_serialize_schema (fun defs => NoDup defs.*1)).
  intros. by apply dict_set_NoDup.
Qed.

(** ** The definitions of user classes *)

(** For a class already in [definitions], the constructor returns at once:
    nothing is computed, nothing is written. *)
Lemma Object_init_registered (cls : Class) (a : Attrs) object_name
  (defs : Definitions) :
  dict_mem defs (cls_id cls) = true →
  Object_init cls a object_name defs =
  (defs, Ok (mkObject a cls (ref_name object_name cls))).
Proof.
  intros Hm. unfold Object_init, Object_init_with. by rewrite Hm.
Qed.

(** For a class not yet there, a constructor that returns has stored its
    own instance with the definition it computed. *)
Lemma Object_init_new (cls : Class) (a : Attrs) object_name
  (defs defs1 : Definitions) (self : Obj) :
  dict_mem defs (cls_id cls) = false →
  Object_init cls a object_name defs = (defs1, Ok self) →
  self = mkObject a cls (ref_name object_name cls) ∧
  ∃ defs' definition,
    Object_definition a cls defs = (defs', Ok definition) ∧
    defs1 = dict_set defs' (cls_id cls) (self, definition).
Proof.
  intros Hm. unfold Object_init, Object_init_with. rewrite Hm. simpl.
  intros (defs' & definition & Hdef & Hset)%bind_Ok.
  injection Hset as <- <-. eauto.
Qed.

Lemma Object_serialize_ref (self : Obj) :
  dict_get (Object_serialize self) "$ref" =
  Some (VStr ("#/definitions/" +:+ o_object_name self)).
Proof. unfold Object_serialize. by rewrite merge_get. Qed.

(** C1: when [Object(C)] has been constructed in a well-formed
    [definitions], the dictionary holds exactly one entry for [C]; a second
    construction, whatever its arguments, returns without changing
    [definitions]; the entry of a class that was new is the first instance
    with its definition; and the instance serializes with ["$ref"] equal to
    ["#/definitions/"] followed by the name of [C], or by [object_name] when
    one (not empty) was given. *)
Theorem Object_registered_once (cls : Class) (a1 a2 : Attrs)
  (n1 n2 : option string) (defs defs1 : Definitions) (self1 : Obj) :
  NoDup defs.*1 →
  Object_init cls a1 n1 defs = (defs1, Ok self1) →
  dict_count defs1 (cls_id cls) = 1 ∧
  Object_init cls a2 n2 defs1 =
    (defs1, Ok (mkObject a2 cls (ref_name n2 cls))) ∧
  (if dict_mem defs (cls_id cls) then defs1 = defs
   else ∃ definition,
          dict_get defs1 (cls_id cls) = Some (self1, definition)) ∧
  dict_get (Object_serialize self1) "$ref" =
    Some (VStr ("#/definitions/" +:+
                match n1 with
                | Some n => if String.eqb n "" then cls_name cls else n
                | None => cls_name cls
                end)).
Proof.
  intros Hnd Hinit.
  assert (Hnd1 : NoDup defs1.*1).
  { pose proof (preserves_Object_init (fun defs => NoDup defs.*1)
                  (fun d k e H => dict_set_NoDup d k e H) cls a1 n1 defs Hnd)
      as H.
    by rewrite Hinit in H. }
  assert (Hname : o_object_name self1 =
                  match n1 with
                  | Some n => if String.eqb n "" then cls_name cls else n
                  | None => cls_name cls
                  end).
  { destruct (dict_mem defs (cls_id cls)) eqn:Hm.
    - rewrite Object_init_registered in Hinit by done.
      injection Hinit as <- <-. simpl. destruct n1 as [n|]; simpl; [|done].
      by destruct (String.eqb n "").
    - apply Object_init_new in Hinit as [-> _]; [|done].
      simpl. destruct n1 as [n|]; simpl; [|done].
      by destruct (String.eqb n ""). }
  assert (Hm1 : dict_mem defs1 (cls_id cls) = true).
  { destruct (dict_mem defs (cls_id cls)) eqn:Hm.
    - rewrite Object_init_registered in Hinit by done. by injection Hinit as <- <-.
    - apply Object_init_new in Hinit as [_ (defs' & d & _ & ->)]; [|done].
      apply dict_mem_set. }
  split_and!.
  - by apply dict_count_present.
  - by apply Object_init_registered.
  - destruct (dict_mem defs (cls_id cls)) eqn:Hm.
    + rewrite Object_init_registered in Hinit by done. by injection Hinit as <- <-.
    + apply Object_init_new in Hinit as [_ (defs' & d & _ & ->)]; [|done].
      exists d. apply dict_get_set_eq.
  - by rewrite Object_serialize_ref, Hname.
Qed.

Lemma Object_registered_once_witness :
  let defs1 := (Object_init User no_attrs None []).1 in
  let self1 := mkObject no_attrs User "User" in
  NoDup ([] : Definitions).*1 ∧
  Object_init User no_attrs None [] = (defs1, Ok self1) ∧
  dict_count defs1 1 = 1 ∧
  Object_init User
    (Field_init VNone (VBool true) VNone VNone VNone VNone) (Some "Account")
    defs1 =
    (defs1,
     Ok (mkObject (Field_init VNone (VBool true) VNone VNone VNone VNone)
           User "Account")) ∧
  dict_get (Object_serialize self1) "$ref" =
    Some (VStr "#/definitions/User").
Proof.
  cbv zeta.
  pose proof (Object_registered_once User no_attrs
                (Field_init VNone (VBool true) VNone VNone VNone VNone)
                None (Some "Account") []
                (Object_init User no_attrs None []).1
                (mkObject no_attrs User "User")
                (NoDup_nil_2 : NoDup ([] : Definitions).*1) eq_refl)
    as (Hcount & Hsecond & _ & Href).
  split_and!; [apply NoDup_nil_2|reflexivity|exact Hcount|exact Hsecond|
               exact Href].
Defined.

(** A class with an attribute that the resolver cannot serialize is never
    constructed: the exception of [List.serialize] goes through
    [Object.__init__], after the classes met before it were stored, and no
    entry is made for the class. *)
Lemma Object_init_Broken :
  ∃ defs1,
    Object_init Broken no_attrs None [] = (defs1, Raise UnboundLocalError) ∧
    dict_keys defs1 = [cls_id User] ∧
    dict_mem defs1 (cls_id Broken) = false ∧
    Object_init Broken no_attrs None defs1 = (defs1, Raise UnboundLocalError).
Proof. eexists. split_and!; reflexivity. Qed.

(** * Further properties of the code *)

(** ** Serializations *)

Lemma serialize_merges_attrs_witness :
  let f := String_init (Field_init VNone (VBool false) (VStr "x") VNone VNone VNone) in
  class_of f ≠ CList ∧
  serialize f [] =
    ([], Ok [("type", VStr "string"); ("name", VStr "x");
             ("required", VBool false)]) ∧
  Field_get (attrs_of f) "required" = Some (VBool false) ∧
  dict_get
    [("type", VStr "string"); ("name", VStr "x"); ("required", VBool false)]
    "required" = Some (VBool false).
Proof.
  cbv zeta. split_and!; [done|reflexivity|reflexivity|].
  apply (serialize_merges_attrs
           (String_init
              (Field_init VNone (VBool false) (VStr "x") VNone VNone VNone))
           [] [] _ "required" (VBool false)); [done|reflexivity|reflexivity].
Defined.

Lemma Field_get_not_None (a : Attrs) (key : string) :
  Field_get a key ≠ Some VNone.
Proof.
  unfold Field_get. repeat case_decide; try done.
  - destruct (f_name a); simpl; try done; by case_match.
  - destruct (f_description a); simpl; try done; by case_match.
  - by destruct (f_required a).
  - by destruct (f_default a).
  - by destruct (f_enum a).
  - by destruct (f_indata a).
Qed.

Lemma addition_get (minimum maximum : PyVal) (key : string) :
  dict_get (addition minimum maximum) key =
  if decide (key = "minimum") then
    match minimum with VNone => None | v => Some v end
  else if decide (key = "maximum") then
    match maximum with VNone => None | v => Some v end
  else None.
Proof.
  unfold addition.
  destruct minimum, maximum; simpl; repeat case_decide; simplify_eq; done.
Qed.

Lemma addition_NoDup (minimum maximum : PyVal) :
  NoDup (addition minimum maximum).*1.
Proof.
  unfold addition.
  destruct (is_not_None minimum), (is_not_None maximum); simpl;
    apply (bool_decide_unpack _); vm_compute; exact I.
Qed.

(** The dictionary of a numeric field before the merge with the
    attributes of [Field]. *)
Lemma numeric_get (t fmt minimum maximum : PyVal) (key : string) :
  dict_get
    (dict_update [("type", t); ("format", fmt)] (addition minimum maximum))
    key =
  if decide (key = "type") then Some t
  else if decide (key = "format") then Some fmt
  else dict_get (addition minimum maximum) key.
Proof.
  rewrite dict_get_update, dict_get_reverse by apply addition_NoDup.
  rewrite addition_get. simpl.
  repeat case_decide; simplify_eq; try done.
  - by destruct minimum.
  - by destruct maximum.
Qed.

(** X4: [Integer] and [Float] write [minimum] and [maximum] exactly when they
    are not [None], with their value, [0] included; no attribute of [Field]
    can take their place. *)
Theorem numeric_bounds_serialized (a : Attrs) (minimum maximum : PyVal) :
  dict_get (Integer_serialize a minimum maximum) "minimum" =
    match minimum with VNone => None | v => Some v end ∧
  dict_get (Integer_serialize a minimum maximum) "maximum" =
    match maximum with VNone => None | v => Some v end ∧
  dict_get (Float_serialize a minimum maximum) "minimum" =
    match minimum with VNone => None | v => Some v end ∧
  dict_get (Float_serialize a minimum maximum) "maximum" =
    match maximum with VNone => None | v => Some v end ∧
  dict_get (Integer_serialize a (VInt 0) maximum) "minimum" = Some (VInt 0).
Proof.
  unfold Integer_serialize, Float_serialize.
  split_and!; rewrite merge_get, numeric_get, addition_get; done.
Qed.

(** X3: A serialization never binds a key to [None]: what is absent is left
    out. *)
Theorem serialize_without_None (f : Inst) (defs defs' : Definitions)
  (d : Dict) (key : string) :
  serialize f defs = (defs', Ok d) → dict_get d key ≠ Some VNone.
Proof.
  intros Hs. unfold serialize in Hs.
  assert (Hmerge : ∀ own (a : Attrs),
            dict_get own key ≠ Some VNone →
            dict_get (dict_update own (Field_serialize a)) key ≠ Some VNone).
  { intros own a Hown. rewrite merge_get.
    pose proof (Field_get_not_None a key).
    by destruct (Field_get a key). }
  assert (Hnum : ∀ t fmt mi ma,
            t ≠ VNone → fmt ≠ VNone →
            dict_get
              (dict_update [("type", t); ("format", fmt)] (addition mi ma))
              key ≠ Some VNone).
  { intros t fmt mi ma Ht Hfmt. rewrite numeric_get, addition_get.
    repeat case_decide; try done; try congruence.
    - by destruct mi.
    - by destruct ma. }
  destruct f as [a|a mi ma|a|a|a mi ma|a|a|a|a|a fields|a items|o];
    simpl in Hs.
  all: try (apply bind_Ok in Hs as (? & ? & _ & Hs); unfold ret in Hs).
  all: try (injection Hs as <- <-).
  all: unfold Integer_serialize, File_serialize, String_serialize,
         Float_serialize, Boolean_serialize, Tuple_serialize, Date_serialize,
         DateTime_serialize, Object_serialize.
  all: try (by apply Hmerge; simpl; repeat case_decide).
  all: try (by apply Hmerge, Hnum).
  - rewrite Field_serialize_get. apply Field_get_not_None.
  - rewrite Field_serialize_get. apply Field_get_not_None.
  - destruct items as [|x [|y l]]; simpl in Hs; [done| |].
    + apply bind_Ok in Hs as (? & ? & _ & Hs). injection Hs as <- <-.
      simpl. by repeat case_decide.
    + injection Hs as <- <-. simpl. by repeat case_decide.
Qed.

Lemma serialize_without_None_witness :
  serialize (Integer_init VNone VNone VNone VNone VNone VNone (VInt 9)) [] =
    ([], Ok [("type", VStr "integer"); ("format", VStr "int64");
             ("maximum", VInt 9)]) ∧
  dict_get
    [("type", VStr "integer"); ("format", VStr "int64"); ("maximum", VInt 9)]
    "minimum" ≠ Some VNone.
Proof.
  split; [reflexivity|].
  apply (serialize_without_None
           (Integer_init VNone VNone VNone VNone VNone VNone (VInt 9)) [] []).
  reflexivity.
Defined.

(** X2: The keys of a class are in every serialization of its instances, and
    no attribute of [Field] is written under one of them: the merge cannot
    replace a type-specific value. *)
Theorem serialize_has_own_keys (f : Inst) (defs defs' : Definitions)
  (d : Dict) (key : string) :
  serialize f defs = (defs', Ok d) →
  key ∈ own_keys (class_of f) →
  dict_mem d key = true ∧ Field_get (attrs_of f) key = None.
Proof.
  intros Hs Hk. unfold serialize in Hs.
  assert (Hfield : ∀ a : Attrs,
            key ∈ ["type"; "format"; "properties"; "items"; "$ref"] →
            Field_get a key = None).
  { intros a Hin. unfold Field_get.
    rewrite !elem_of_cons, elem_of_nil in Hin.
    repeat case_decide; simplify_eq; try done; naive_solver. }
  assert (Hmerge : ∀ own (a : Attrs),
            Field_get a key = None → dict_mem own key = true →
            dict_mem (dict_update own (Field_serialize a)) key = true).
  { intros own a Hnone Hown. unfold dict_mem in *.
    by rewrite merge_get, Hnone. }
  assert (Hnum : ∀ t fmt mi ma,
            key ∈ ["type"; "format"] →
            dict_mem
              (dict_update [("type", t); ("format", fmt)] (addition mi ma))
              key = true).
  { intros t fmt mi ma Hin. unfold dict_mem. rewrite numeric_get.
    rewrite !elem_of_cons, elem_of_nil in Hin.
    repeat case_decide; naive_solver. }
  destruct f as [a|a mi ma|a|a|a mi ma|a|a|a|a|a fields|a items|o];
    simpl in *.
  all: try (by apply elem_of_nil in Hk).
  all: split; [|apply Hfield; set_solver].
  all: try (apply bind_Ok in Hs as (? & ? & _ & Hs); unfold ret in Hs).
  all: try (injection Hs as <- <-).
  all: unfold Integer_serialize, File_serialize, String_serialize,
         Float_serialize, Boolean_serialize, Date_serialize,
         DateTime_serialize, Object_serialize.
  all: try (apply Hmerge; [apply Hfield; set_solver|]).
  all: try (by apply Hnum).
  all: try (by apply dict_mem_elem_of).
  destruct items as [|x [|y l]]; simpl in Hs; [done| |].
  - apply bind_Ok in Hs as (? & ? & _ & Hs). injection Hs as <- <-.
    by apply dict_mem_elem_of.
  - injection Hs as <- <-. by apply dict_mem_elem_of.
Qed.

Lemma serialize_has_own_keys_witness :
  let f := Float_init VNone VNone (VStr "ratio") VNone VNone VNone VNone in
  serialize f [] =
    ([], Ok [("type", VStr "number"); ("format", VStr "float");
             ("name", VStr "ratio")]) ∧
  "format" ∈ own_keys (class_of f) ∧
  dict_mem
    [("type", VStr "number"); ("format", VStr "float");
     ("name", VStr "ratio")] "format" = true ∧
  Field_get (attrs_of f) "format" = None.
Proof.
  cbv zeta. split; [reflexivity|]. split; [simpl; set_solver|].
  apply (serialize_has_own_keys
           (Float_init VNone VNone (VStr "ratio") VNone VNone VNone VNone)
           [] []); [reflexivity|simpl; set_solver].
Defined.

(** ** Lists *)

(** X5: What [List.__init__] keeps as items: nothing for a false value
    ([None], [0], [""], an empty tuple, ...), the list itself for a list,
    and the value as only item otherwise, a tuple included; a [List] built
    on a false value then raises when serialized. *)
Theorem List_init_items (v : PyVal) (a : Attrs) (defs : Definitions) :
  (truthy v = false → List_init v a = IList a []) ∧
  (truthy v = false →
   serialize (List_init v a) defs = (defs, Raise UnboundLocalError)) ∧
  (∀ l, v = VList l → List_init v a = IList a l) ∧
  (truthy v = true → (∀ l, v ≠ VList l) → List_init v a = IList a [v]).
Proof.
  split_and!.
  - intros Hv. unfold List_init, py_or. by rewrite Hv.
  - intros Hv. unfold List_init, py_or. by rewrite Hv.
  - intros l ->. apply List_init_list.
  - apply List_init_single.
Qed.

Lemma List_init_items_witness :
  truthy (VTuple []) = false ∧
  List_init (VTuple []) no_attrs = IList no_attrs [] ∧
  serialize (List_init (VInt 0) no_attrs) [] =
    ([], Raise UnboundLocalError) ∧
  List_init (VTuple [VBuiltin Bint; VBuiltin Bstr]) no_attrs =
    IList no_attrs [VTuple [VBuiltin Bint; VBuiltin Bstr]].
Proof.
  split; [reflexivity|].
  split; [exact (proj1 (List_init_items (VTuple []) no_attrs []) eq_refl)|].
  split; [exact (proj1 (proj2 (List_init_items (VInt 0) no_attrs []))
                   eq_refl)|].
  apply (proj2 (proj2 (proj2
           (List_init_items (VTuple [VBuiltin Bint; VBuiltin Bstr])
              no_attrs [])))); [reflexivity|discriminate].
Defined.


(** ** Properties of objects and dictionaries *)

(** The keys of a comprehension over distinct keys: those that pass the
    filter, in the order of the source dictionary, each bound to a
    dictionary. *)
Lemma properties_keys (rec : PyVal → M Dict) (keep : string → bool)
  (fields acc props : Dict) (defs defs' : Definitions) :
  NoDup (acc.*1 ++ fields.*1) →
  properties rec keep fields acc defs = (defs', Ok props) →
  props.*1 = acc.*1 ++ filter (fun key => keep key = true) fields.*1.
Proof.
  revert acc defs. induction fields as [|[key schema] fields IH];
    intros acc defs Hnd Hp; simpl in Hp.
  - injection Hp as <- <-. by rewrite app_nil_r.
  - csimpl in *. destruct (keep key) eqn:Hkeep.
    + apply bind_Ok in Hp as (defs1 & v & _ & Hp).
      rewrite filter_cons_True by done.
      apply NoDup_app in Hnd as (Hacc & Hdisj & Hf).
      apply IH in Hp.
      * rewrite Hp, dict_set_keys.
        destruct (dict_mem acc key) eqn:Hm.
        -- apply dict_mem_elem_of in Hm. destruct (Hdisj key Hm). by left.
        -- by rewrite <-app_assoc.
      * rewrite dict_set_keys.
        destruct (dict_mem acc key) eqn:Hm.
        -- apply dict_mem_elem_of in Hm. destruct (Hdisj key Hm). by left.
        -- rewrite <-app_assoc. simpl. apply NoDup_app. split_and!; done.
    + rewrite filter_cons_False by (by rewrite Hkeep).
      apply IH in Hp; [done|].
      apply NoDup_app in Hnd as (Hacc & Hdisj & [_ Hf]%NoDup_cons).
      apply NoDup_app. split_and!; [done| |done].
      intros x Hx Hin. apply (Hdisj x Hx). by right.
Qed.

(** X7: [Dictionary.serialize] lists the properties in the order of the
    fields, one for each field. *)
Theorem Dictionary_properties_order (a : Attrs) (fields : Dict)
  (defs defs' : Definitions) (d : Dict) :
  NoDup fields.*1 →
  serialize (IDictionary a fields) defs = (defs', Ok d) →
  ∃ props,
    dict_get d "properties" = Some (VDict props) ∧
    props.*1 = fields.*1 ∧
    dict_get d "type" = Some (VStr "object").
Proof.
  intros Hnd Hs. unfold serialize in Hs. simpl in Hs.
  apply bind_Ok in Hs as (defs1 & props & Hp & Hs). injection Hs as <- <-.
  exists props. split_and!.
  - by rewrite merge_get.
  - apply properties_keys in Hp; [|done]. rewrite Hp. simpl.
    clear. induction (fields.*1) as [|k l IH]; [done|].
    by rewrite filter_cons_True, IH.
  - by rewrite merge_get.
Qed.

Lemma Dictionary_properties_order_witness :
  let fields := [("id", VBuiltin Bint); ("tags", VList [VBuiltin Bstr])] in
  NoDup fields.*1 ∧
  ∃ d props,
    serialize (IDictionary no_attrs fields) [] = ([], Ok d) ∧
    dict_get d "properties" = Some (VDict props) ∧
    props.*1 = ["id"; "tags"].
Proof.
  cbv zeta.
  assert (Hnd : NoDup
            [("id", VBuiltin Bint); ("tags", VList [VBuiltin Bstr])].*1)
    by (apply (bool_decide_unpack _); vm_compute; exact I).
  split; [exact Hnd|]. eexists.
  destruct (Dictionary_properties_order no_attrs
              [("id", VBuiltin Bint); ("tags", VList [VBuiltin Bstr])]
              [] [] _ Hnd eq_refl) as (props & Hp & Hk & _).
  exists props. split_and!; [reflexivity|exact Hp|exact Hk].
Defined.

(** X8: The definition computed for a class is an object schema with one
    property for each attribute whose name does not begin with an
    underscore, in the order of the class dictionary. *)
Theorem Object_definition_properties (a : Attrs) (cls : Class)
  (defs defs' : Definitions) (definition : Dict) :
  NoDup (cls_dict cls).*1 →
  Object_definition a cls defs = (defs', Ok definition) →
  ∃ props,
    dict_get definition "properties" = Some (VDict props) ∧
    props.*1 =
      filter (fun key => startswith_underscore key = false)
        (cls_dict cls).*1 ∧
    dict_get definition "type" = Some (VStr "object").
Proof.
  intros Hnd Hs. unfold Object_definition, Object_definition_with in Hs.
  apply bind_Ok in Hs as (defs1 & props & Hp & Hs). injection Hs as <- <-.
  exists props. split_and!.
  - by rewrite merge_get.
  - apply properties_keys in Hp; [|done]. rewrite Hp. simpl.
    clear. induction ((cls_dict cls).*1) as [|k l IH]; [done|].
    destruct (startswith_underscore k) eqn:Hk.
    + by rewrite !filter_cons_False, IH by (by rewrite ?Hk).
    + by rewrite !filter_cons_True, IH by (by rewrite ?Hk).
  - by rewrite merge_get.
Qed.

Lemma Object_definition_properties_witness :
  NoDup (cls_dict User).*1 ∧
  ∃ definition props,
    Object_definition no_attrs User [] = ([], Ok definition) ∧
    dict_get definition "properties" = Some (VDict props) ∧
    props.*1 = ["id"; "name"].
Proof.
  assert (Hnd : NoDup (cls_dict User).*1)
    by (apply (bool_decide_unpack _); vm_compute; exact I).
  split; [exact Hnd|]. eexists.
  destruct (Object_definition_properties no_attrs User [] [] _ Hnd eq_refl)
    as (props & Hp & Hk & _).
  exists props. split_and!; [reflexivity|exact Hp|exact Hk].
Defined.

(** ** The resolver and [definitions] *)

(** X9: The resolver only appends to [definitions]: the classes stored before
    a call are the first ones after it, in the same order, whether the call
    returns or raises. *)
Theorem definitions_only_grow (schema : PyVal) (defs : Definitions) :
  dict_keys defs `prefix_of` dict_keys (serialize_schema schema defs).1.
Proof.
  unfold dict_keys.
  apply (preserves_serialize_schema
           (fun defs' : Definitions => defs.*1 `prefix_of` defs'.*1));
    [|done].
  intros defs' k e Hp. rewrite dict_set_keys.
  destruct (dict_mem defs' k); [done|]. by apply prefix_app_r.
Qed.

(** X10: On a class that is in [definitions] the resolver returns the reference
    by the name of the class, without reading the class dictionary (so
    without the exceptions it could raise) and without writing
    [definitions]; the [object_name] under which the class was stored
    plays no part. *)
Theorem registered_class_resolves (cls : Class) (defs : Definitions) :
  dict_mem defs (cls_id cls) = true →
  serialize_schema (VClass cls) defs =
  (defs, Ok [("$ref", VStr ("#/definitions/" +:+ cls_name cls))]).
Proof.
  intros Hm. simpl. unfold bind.
  change (Object_init_with serialize_schema cls no_attrs None defs)
    with (Object_init cls no_attrs None defs).
  by rewrite Object_init_registered.
Qed.

Lemma registered_class_resolves_witness :
  let defs := (Object_init User no_attrs (Some "Account") []).1 in
  dict_mem defs (cls_id User) = true ∧
  (∃ definition,
     dict_get defs (cls_id User) =
     Some (mkObject no_attrs User "Account", definition)) ∧
  serialize_schema (VClass User) defs =
    (defs, Ok [("$ref", VStr "#/definitions/User")]).
Proof.
  cbv zeta. split; [reflexivity|]. split; [eexists; reflexivity|].
  apply (registered_class_resolves User
           (Object_init User no_attrs (Some "Account") []).1).
  reflexivity.
Defined.

Lemma properties_class_free (rec : PyVal → M Dict) (keep : string → bool)
  (fields acc : Dict) (defs : Definitions) :
  Forall
    (fun kv => class_free kv.2 = true → ∀ defs, (rec kv.2 defs).1 = defs)
    fields →
  forallb (fun kv => class_free kv.2) fields = true →
  (properties rec keep fields acc defs).1 = defs.
Proof.
  intros Hf. revert acc defs.
  induction Hf as [|[key schema] fields Hs Hf IH]; intros acc defs Hc;
    simpl in *; [done|].
  apply andb_prop in Hc as [Hc1 Hc2].
  destruct (keep key); [|by apply IH].
  unfold bind. specialize (Hs Hc1 defs).
  destruct (rec schema defs) as [defs1 [v|e]]; simpl in *; subst; [|done].
  by apply IH.
Qed.

(** X11: On a value in which it meets no user class the resolver leaves
    [definitions] as it is, whether it returns or raises. *)
Theorem class_free_keeps_definitions (schema : PyVal) (defs : Definitions) :
  class_free schema = true → (serialize_schema schema defs).1 = defs.
Proof.
  intros Hc. revert Hc defs.
  induction schema as [l IH|d IH|c IH|f IH|v Hv] using PyVal_resolver_ind;
    intros Hc defs.
  - simpl in *. destruct IH as [|x [|y l] Hx _]; simpl in *; [done| |done].
    rewrite andb_true_r in Hc. unfold bind. specialize (Hx Hc defs).
    by destruct (serialize_schema x defs) as [defs1 [v|e]].
  - simpl in *. unfold Dictionary_serialize_with, bind.
    pose proof (properties_class_free serialize_schema (fun _ => true) d []
                  defs IH Hc) as Hp.
    by destruct (properties serialize_schema (fun _ => true) d [] defs)
      as [defs1 [v|e]].
  - done.
  - destruct f as [| | | | | | | | |a fields|a items|]; simpl in *;
      try done.
    + unfold Dictionary_serialize_with, bind.
      pose proof (properties_class_free serialize_schema (fun _ => true)
                    fields [] defs IH Hc) as Hp.
      by destruct (properties serialize_schema (fun _ => true) fields []
                     defs) as [defs1 [v|e]].
    + destruct IH as [|x [|y l] Hx _]; simpl in *; [done| |done].
      rewrite andb_true_r in Hc. unfold bind. specialize (Hx Hc defs).
      by destruct (serialize_schema x defs) as [defs1 [v|e]].
  - destruct v as [ |b|z|s|l|l|d|b|c|c|c|f|i t]; try done.
    + by destruct b.
    + by destruct c.
Qed.

Lemma class_free_keeps_definitions_witness :
  let schema :=
    VDict [("ids", VList [VBuiltin Bint]); ("at", VBuiltin Bdatetime)] in
  let defs := (Object_init User no_attrs None []).1 in
  class_free schema = true ∧ (serialize_schema schema defs).1 = defs.
Proof.
  cbv zeta. split; [reflexivity|].
  apply (class_free_keeps_definitions
           (VDict [("ids", VList [VBuiltin Bint]); ("at", VBuiltin Bdatetime)])
           (Object_init User no_attrs None []).1).
  reflexivity.
Defined.

(** ** Documenters as updates of one record *)

Lemma route_insert s d c p cct pct h hd func (route_specs : RouteSpecs) :
  route s d c p cct pct h hd func route_specs =
  <[func := route_update s d c p cct pct h hd (spec_of route_specs func)]>
    route_specs.
Proof.
  unfold route, spec_of.
  destruct (getitem route_specs func) as [r rs'] eqn:E.
  replace rs' with (getitem route_specs func).2 by by rewrite E.
  apply getitem_insert.
Qed.

Lemma insert_spec_of_insert (route_specs : RouteSpecs) (func : Handler)
  (r r' : RouteSpec) :
  <[func := r']> (<[func := r]> route_specs) = <[func := r']> route_specs.
Proof. apply insert_insert_eq. Qed.

(** A documenter reads and writes the record of its handler only: it
    either leaves [route_specs] alone or stores there what [step] makes of
    that record. *)
Lemma apply_step (a : Annotation) (func : Handler)
  (route_specs : RouteSpecs) :
  apply a func route_specs =
  match step a (spec_of route_specs func) with
  | Some r => <[func := r]> route_specs
  | None => route_specs
  end.
Proof.
  destruct a; unfold apply, step.
  - apply route_insert.
  - apply assign_insert.
  - apply assign_insert.
  - unfold consumes. destruct (truthy (VTuple args)); [|done].
    by rewrite !assign_insert, spec_of_insert, decide_True,
      insert_spec_of_insert.
  - unfold produces. destruct (truthy (VTuple args)); [|done].
    by rewrite !assign_insert, !spec_of_insert, !decide_True,
      !insert_spec_of_insert.
  - apply tag_insert.
  - apply assign_insert.
  - unfold headers. destruct (truthy (VTuple args)); [|done].
    apply assign_insert.
Qed.

Lemma apply_other_witness :
  (3 : Handler) ≠ 4 ∧
  spec_of (apply (Tag (VStr "users")) 3 (apply Hide 4 ∅)) 4 =
  spec_of (apply Hide 4 ∅) 4.
Proof.
  split; [discriminate|].
  apply (apply_other (Tag (VStr "users")) 3 4 (apply Hide 4 ∅)).
  discriminate.
Defined.

(** X14: Documenters on two different handlers commute. *)
Theorem apply_commute (a b : Annotation) (func g : Handler)
  (route_specs : RouteSpecs) :
  func ≠ g →
  apply a func (apply b g route_specs) = apply b g (apply a func route_specs).
Proof.
  intros Hne. rewrite !apply_step.
  assert (Hf : ∀ r, spec_of (<[g := r]> route_specs) func =
                    spec_of route_specs func).
  { intros r. rewrite spec_of_insert. by rewrite decide_False. }
  assert (Hg : ∀ r, spec_of (<[func := r]> route_specs) g =
                    spec_of route_specs g).
  { intros r. rewrite spec_of_insert. by rewrite decide_False. }
  destruct (step b (spec_of route_specs g)) as [rg|] eqn:Eg;
    destruct (step a (spec_of route_specs func)) as [rf|] eqn:Ef;
    rewrite ?Hf, ?Hg, ?Eg, ?Ef; try done.
  by apply insert_insert_ne.
Qed.

Lemma apply_commute_witness :
  (3 : Handler) ≠ 4 ∧
  apply (Summary (VStr "list")) 3 (apply Hide 4 ∅) =
  apply Hide 4 (apply (Summary (VStr "list")) 3 ∅).
Proof.
  split; [discriminate|].
  apply (apply_commute (Summary (VStr "list")) Hide 3 4 ∅). discriminate.
Defined.

Lemma setattr_setattr (r : RouteSpec) (attr : Attr) (v w : PyVal) :
  setattr (setattr r attr v) attr w = setattr r attr w.
Proof. by destruct attr. Qed.

Lemma setattr_commute (r : RouteSpec) (attr attr' : Attr) (v w : PyVal) :
  attr ≠ attr' →
  setattr (setattr r attr v) attr' w = setattr (setattr r attr' w) attr v.
Proof. by destruct attr, attr'. Qed.

Lemma RouteSpec_eq (r r' : RouteSpec) :
  (∀ attr, getattr r attr = getattr r' attr) → rs_tags r = rs_tags r' →
  r = r'.
Proof.
  intros Hattr Htags. destruct r, r'. simpl in Htags. subst.
  pose proof (Hattr Aconsumes). pose proof (Hattr Aconsumes_content_type).
  pose proof (Hattr Aproduces). pose proof (Hattr Aproduces_content_type).
  pose proof (Hattr Asummary). pose proof (Hattr Adescription).
  pose proof (Hattr Aoperation). pose proof (Hattr Ablueprint).
  pose proof (Hattr Ahide). pose proof (Hattr Aproduces_description).
  pose proof (Hattr Aproduces_examples). pose proof (Hattr Aheaders).
  simpl in *. by subst.
Qed.

Lemma rs_tags_cond (c : bool) (r : RouteSpec) (attr : Attr) (v : PyVal) :
  rs_tags (if c then setattr r attr v else r) = rs_tags r.
Proof. destruct c; [apply rs_tags_setattr|done]. Qed.

Lemma route_update_idempotent s d c p cct pct h hd (r : RouteSpec) :
  route_update s d c p cct pct h hd (route_update s d c p cct pct h hd r) =
  route_update s d c p cct pct h hd r.
Proof.
  apply RouteSpec_eq.
  - intros attr. unfold route_update. cbv zeta. rewrite !getattr_cond.
    destruct attr; cbn [bool_decide decide decide_rel Attr_eq_dec];
      rewrite ?andb_false_r, ?andb_true_r;
      repeat match goal with
             | |- context [if ?b then _ else _] => destruct b
             end; reflexivity.
  - unfold route_update. cbv zeta. by rewrite !rs_tags_cond.
Qed.

(** X16: Every documenter but [tag] is idempotent: applied twice to a handler
    it leaves [route_specs] as after the first time. *)
Theorem apply_idempotent (a : Annotation) (func : Handler)
  (route_specs : RouteSpecs) :
  (∀ name, a ≠ Tag name) →
  apply a func (apply a func route_specs) = apply a func route_specs.
Proof.
  intros Htag. rewrite !apply_step.
  destruct (step a (spec_of route_specs func)) as [r|] eqn:E; [|by rewrite E].
  rewrite spec_of_insert, decide_True by done.
  assert (Hr : step a r = Some r).
  { destruct a; unfold step in *.
    - apply (inj Some) in E as <-. by rewrite route_update_idempotent.
    - apply (inj Some) in E as <-. by rewrite setattr_setattr.
    - apply (inj Some) in E as <-. by rewrite setattr_setattr.
    - destruct (truthy (VTuple args)); [|done]. apply (inj Some) in E as <-.
      f_equal; by destruct (spec_of route_specs func).
    - destruct (truthy (VTuple args)); [|done]. apply (inj Some) in E as <-.
      f_equal; by destruct (spec_of route_specs func).
    - by destruct (Htag name).
    - apply (inj Some) in E as <-. by rewrite setattr_setattr.
    - destruct (truthy (VTuple args)); [|done]. apply (inj Some) in E as <-.
      by rewrite setattr_setattr. }
  rewrite Hr. apply insert_insert_eq.
Qed.

Lemma apply_idempotent_witness :
  let a := Produces [VBuiltin Bint] (VStr "") VNone VNone in
  (∀ name, a ≠ Tag name) ∧
  apply a 3 (apply a 3 ∅) = apply a 3 ∅.
Proof.
  cbv zeta. split; [discriminate|].
  apply (apply_idempotent (Produces [VBuiltin Bint] (VStr "") VNone VNone)
           3 ∅).
  discriminate.
Defined.

(** X18: [tag] is not idempotent: every application appends, so a stack of
    tags ends up in [tags] in the order of application, duplicates
    included, after the tags already there. *)
Theorem tags_in_order (names : list PyVal) (func : Handler)
  (route_specs : RouteSpecs) :
  rs_tags (spec_of (apply_all (Tag <$> names) func route_specs) func) =
  rs_tags (spec_of route_specs func) ++ names.
Proof.
  unfold apply_all. revert route_specs.
  induction names as [|name names IH]; intros route_specs; csimpl.
  - by rewrite app_nil_r.
  - rewrite IH, spec_of_tag. simpl. by rewrite <-app_assoc.
Qed.

(** [produces] follows the rule of [consumes] for its descriptors: one is
    stored as it is, two or more as the tuple of all of them in order, and
    without any [route_specs] is not touched, whatever the keyword
    arguments. *)
Theorem produces_collapse (func : Handler) (route_specs : RouteSpecs)
  (d d1 d2 description content_type examples : PyVal) (rest : list PyVal) :
  getattr
    (spec_of
       (produces [d] description content_type examples func route_specs)
       func) Aproduces = d ∧
  getattr
    (spec_of
       (produces (d1 :: d2 :: rest) description content_type examples func
          route_specs) func) Aproduces = VTuple (d1 :: d2 :: rest) ∧
  produces [] description content_type examples func route_specs =
    route_specs.
Proof.
  unfold produces. cbn [truthy length Nat.eqb negb].
  split_and!; [| |done]; by rewrite !spec_of_assign, !getattr_setattr.
Qed.

(** [route_specs[func]] never fails: it returns the record of the handler,
    a new one with the defaults when there was none, which is then bound
    to the handler; the other handlers keep their bindings, and reading
    again changes nothing. *)
Theorem getitem_creates (route_specs : RouteSpecs) (func : Handler) :
  (getitem route_specs func).1 =
    default RouteSpec_init (route_specs !! func) ∧
  (getitem route_specs func).2 !! func = Some (getitem route_specs func).1 ∧
  delete func (getitem route_specs func).2 = delete func route_specs ∧
  getitem (getitem route_specs func).2 func = getitem route_specs func.
Proof.
  unfold getitem. destruct (route_specs !! func) as [r|] eqn:E; simpl.
  - by rewrite E.
  - rewrite lookup_insert_eq. split_and!; try done.
    apply delete_insert_eq.
Qed.

(** ** Classes given to the resolver *)

(** A builtin class resolves as the class of the hierarchy that stands
    for it. *)
Theorem builtin_resolves_as_class (b : Builtin) (defs : Definitions) :
  serialize_schema (VBuiltin b) defs =
  serialize_schema (VFieldClass (class_of_builtin b)) defs.
Proof. by destruct b. Qed.

(** X12: On a class of the hierarchy the resolver raises for [List]
    ([UnboundLocalError]) and for [Object] ([TypeError], its constructor
    needs a class), and otherwise returns a dictionary with the keys of the
    class and nothing else; [definitions] is not touched. *)
Theorem FieldClass_resolves (c : FieldClass) (defs : Definitions) :
  match c with
  | CList =>
      serialize_schema (VFieldClass c) defs = (defs, Raise UnboundLocalError)
  | CObject => serialize_schema (VFieldClass c) defs = (defs, Raise TypeError)
  | _ =>
      ∃ d, serialize_schema (VFieldClass c) defs = (defs, Ok d) ∧
           d.*1 = own_keys c
  end.
Proof. destruct c; try done; by eexists. Qed.

(** ** Documenters on one handler *)

Lemma getattr_route_update s d c p cct pct h hd (r : RouteSpec)
  (attr : Attr) :
  getattr (route_update s d c p cct pct h hd r) attr =
  default (getattr r attr) (assigned (Route s d c p cct pct h hd) attr).
Proof.
  unfold route_update. cbv zeta. rewrite !getattr_cond.
  destruct attr; cbn [bool_decide decide decide_rel Attr_eq_dec assigned];
    rewrite ?andb_false_r, ?andb_true_r;
    repeat match goal with
           | |- context [if ?b then _ else _] => destruct b
           end; reflexivity.
Qed.

(** The record after a documenter: the assigned attributes have their new
    value, the others their old one, and [tags] is touched by [tag]
    alone. *)
Lemma step_getattr (a : Annotation) (r r' : RouteSpec) (attr : Attr) :
  step a r = Some r' →
  getattr r' attr = default (getattr r attr) (assigned a attr).
Proof.
  destruct a; unfold step; intros E.
  - apply (inj Some) in E as <-. apply getattr_route_update.
  - apply (inj Some) in E as <-. rewrite getattr_setattr. by destruct attr.
  - apply (inj Some) in E as <-. rewrite getattr_setattr. by destruct attr.
  - unfold assigned. destruct (truthy (VTuple args)); [|done].
    apply (inj Some) in E as <-. rewrite !getattr_setattr. by destruct attr.
  - unfold assigned. destruct (truthy (VTuple args)); [|done].
    apply (inj Some) in E as <-. rewrite !getattr_setattr. by destruct attr.
  - apply (inj Some) in E as <-. rewrite getattr_tags_append.
    by destruct attr.
  - apply (inj Some) in E as <-. rewrite getattr_setattr. by destruct attr.
  - unfold assigned. destruct (truthy (VTuple args)); [|done].
    apply (inj Some) in E as <-. rewrite !getattr_setattr. by destruct attr.
Qed.

Lemma step_tags (a : Annotation) (r r' : RouteSpec) :
  step a r = Some r' →
  rs_tags r' =
  match a with Tag name => rs_tags r ++ [name] | _ => rs_tags r end.
Proof.
  destruct a; unfold step; intros E.
  - apply (inj Some) in E as <-. unfold route_update. cbv zeta.
    by rewrite !rs_tags_cond.
  - apply (inj Some) in E as <-. apply rs_tags_setattr.
  - apply (inj Some) in E as <-. apply rs_tags_setattr.
  - destruct (truthy (VTuple args)); [|done].
    apply (inj Some) in E as <-. by rewrite !rs_tags_setattr.
  - destruct (truthy (VTuple args)); [|done].
    apply (inj Some) in E as <-. by rewrite !rs_tags_setattr.
  - by apply (inj Some) in E as <-.
  - apply (inj Some) in E as <-. apply rs_tags_setattr.
  - destruct (truthy (VTuple args)); [|done].
    apply (inj Some) in E as <-. by rewrite !rs_tags_setattr.
Qed.

(** Whether a documenter goes to [route_specs] depends on its arguments
    only. *)
Lemma step_defined (a : Annotation) (r r' : RouteSpec) :
  is_Some (step a r) → is_Some (step a r').
Proof.
  destruct a; unfold step; try done;
    by destruct (truthy (VTuple args)).
Qed.

Lemma spec_of_apply (a : Annotation) (func : Handler)
  (route_specs : RouteSpecs) :
  spec_of (apply a func route_specs) func =
  default (spec_of route_specs func) (step a (spec_of route_specs func)).
Proof.
  rewrite apply_step.
  destruct (step a (spec_of route_specs func)) as [r|]; [|done].
  by rewrite spec_of_insert, decide_True.
Qed.

(** X15: Two documenters that assign no attribute in common, not both [tag],
    commute on one handler: the order of such decorators on a function does
    not matter. *)
Theorem apply_commute_disjoint (a b : Annotation) (func : Handler)
  (route_specs : RouteSpecs) :
  (∀ attr, assigned a attr = None ∨ assigned b attr = None) →
  is_tag a && is_tag b = false →
  apply a func (apply b func route_specs) =
  apply b func (apply a func route_specs).
Proof.
  intros Hdisj Htag. rewrite !apply_step.
  set (r := spec_of route_specs func).
  assert (Hnone : ∀ c r1 r2, step c r1 = None → step c r2 = None).
  { intros c r1 r2 E1. destruct (step c r2) eqn:E2; [|done].
    destruct (step_defined c r2 r1) as [? ?]; [by rewrite E2|congruence]. }
  destruct (step b r) as [rb|] eqn:Eb; destruct (step a r) as [ra|] eqn:Ea;
    rewrite ?spec_of_insert, ?decide_True by done; fold r;
    rewrite ?Ea, ?Eb; try done;
    [|by rewrite (Hnone a r rb)|by rewrite (Hnone b r ra)].
  destruct (step_defined a r rb) as [rba Eba]; [by rewrite Ea|].
  destruct (step_defined b r ra) as [rab Eab]; [by rewrite Eb|].
  rewrite Eba, Eab, !insert_insert_eq. f_equal.
  apply RouteSpec_eq.
  - intros attr.
    rewrite (step_getattr _ _ _ attr Eba), (step_getattr _ _ _ attr Eb),
      (step_getattr _ _ _ attr Eab), (step_getattr _ _ _ attr Ea).
    by destruct (Hdisj attr) as [->| ->];
      [destruct (assigned b attr)|destruct (assigned a attr)].
  - rewrite (step_tags _ _ _ Eba), (step_tags _ _ _ Eb),
      (step_tags _ _ _ Eab), (step_tags _ _ _ Ea).
    by destruct a, b.
Qed.

Lemma apply_commute_disjoint_witness :
  let a := Consumes [VBuiltin Bint] VNone in
  let b := Tag (VStr "users") in
  (∀ attr, assigned a attr = None ∨ assigned b attr = None) ∧
  is_tag a && is_tag b = false ∧
  apply a 3 (apply b 3 ∅) = apply b 3 (apply a 3 ∅).
Proof.
  cbv zeta. split; [by right|]. split; [reflexivity|].
  apply (apply_commute_disjoint (Consumes [VBuiltin Bint] VNone)
           (Tag (VStr "users")) 3 ∅); [by right|reflexivity].
Defined.

(** X17: A documenter applied after another that assigns nothing more, [tag]
    apart, leaves the record as if it had been applied alone: the later
    call overrides the earlier one. *)
Theorem later_call_overrides (a b : Annotation) (func : Handler)
  (route_specs : RouteSpecs) :
  (∀ attr, assigned a attr = None ∨ is_Some (assigned b attr)) →
  is_tag a = false →
  spec_of (apply b func (apply a func route_specs)) func =
  spec_of (apply b func route_specs) func.
Proof.
  intros Hsub Htag. rewrite !spec_of_apply.
  set (r := spec_of route_specs func).
  assert (Ha : ∀ attr,
    getattr (default r (step a r)) attr =
    default (getattr r attr) (assigned a attr)).
  { intros attr. destruct (step a r) as [ra|] eqn:Ea; simpl.
    - apply (step_getattr _ _ _ _ Ea).
    - destruct a; unfold step, assigned in *; try done;
        by destruct (truthy (VTuple args)), attr. }
  assert (Hta : rs_tags (default r (step a r)) = rs_tags r).
  { destruct (step a r) as [ra|] eqn:Ea; simpl; [|done].
    rewrite (step_tags _ _ _ Ea). by destruct a. }
  destruct (step b r) as [rb|] eqn:Eb.
  - destruct (step_defined b r (default r (step a r))) as [rab Eab];
      [by rewrite Eb|].
    rewrite Eab. simpl. apply RouteSpec_eq.
    + intros attr.
      rewrite (step_getattr _ _ _ attr Eab), (step_getattr _ _ _ attr Eb), Ha.
      destruct (Hsub attr) as [->|[v ->]]; done.
    + rewrite (step_tags _ _ _ Eab), (step_tags _ _ _ Eb), Hta. done.
  - destruct (step b (default r (step a r))) as [rab|] eqn:Eab.
    { destruct (step_defined b (default r (step a r)) r) as [? ?];
        [by rewrite Eab|congruence]. }
    simpl. apply RouteSpec_eq; [|done].
    intros attr. rewrite Ha.
    destruct (Hsub attr) as [->|[v Hv]]; [done|].
    destruct b; unfold step, assigned in *; try done;
      by destruct (truthy (VTuple args)), attr.
Qed.

Lemma later_call_overrides_witness :
  let a := Consumes [VBuiltin Bint] (VStr "application/json") in
  let b := Consumes [VBuiltin Bstr] VNone in
  (∀ attr, assigned a attr = None ∨ is_Some (assigned b attr)) ∧
  is_tag a = false ∧
  spec_of (apply b 3 (apply a 3 ∅)) 3 = spec_of (apply b 3 ∅) 3.
Proof.
  cbv zeta. split; [intros []; by (left + (right; eexists))|].
  split; [reflexivity|].
  apply (later_call_overrides
           (Consumes [VBuiltin Bint] (VStr "application/json"))
           (Consumes [VBuiltin Bstr] VNone) 3 ∅);
    [intros []; by (left + (right; eexists))|reflexivity].
Defined.

(** X19: The whole effect of a documenter on the record of its handler: every
    attribute holds the value assigned by the call when there is one and
    its former value otherwise, and [tags] is extended by [tag] and kept by
    the others. *)
Theorem apply_effect (a : Annotation) (func : Handler) (attr : Attr)
  (route_specs : RouteSpecs) :
  getattr (spec_of (apply a func route_specs) func) attr =
    default (getattr (spec_of route_specs func) attr) (assigned a attr) ∧
  rs_tags (spec_of (apply a func route_specs) func) =
    match a with
    | Tag name => rs_tags (spec_of route_specs func) ++ [name]
    | _ => rs_tags (spec_of route_specs func)
    end.
Proof.
  rewrite spec_of_apply.
  destruct (step a (spec_of route_specs func)) as [r|] eqn:E; simpl.
  - split; [by apply step_getattr|by apply step_tags].
  - destruct a; unfold step, assigned in *; try done;
      by destruct (truthy (VTuple args)), attr.
Qed.

(** ** When the resolver returns, and what *)




Lemma properties_deterministic (rec : PyVal → M Dict) (keep : string → bool)
  (fields : Dict) :
  Forall
    (fun kv =>
       ∀ defs1 defs2 d1 d2,
         (rec kv.2 defs1).2 = Ok d1 → (rec kv.2 defs2).2 = Ok d2 → d1 = d2)
    fields →
  ∀ acc defs1 defs2 p1 p2,
    (properties rec keep fields acc defs1).2 = Ok p1 →
    (properties rec keep fields acc defs2).2 = Ok p2 →
    p1 = p2.
Proof.
  induction 1 as [|[key schema] fields Hs Hf IH];
    intros acc defs1 defs2 p1 p2 H1 H2; simpl in *; [congruence|].
  destruct (keep key); [|by eapply IH].
  unfold bind in *. specialize (Hs defs1 defs2).
  destruct (rec schema defs1) as [defs1' [v1|e1]]; [|done].
  destruct (rec schema defs2) as [defs2' [v2|e2]]; [|done].
  simpl in Hs. rewrite (Hs v1 v2 eq_refl eq_refl) in H1. by eapply IH.
Qed.

(** X21: What the resolver returns for a value does not depend on
    [definitions]: two calls that return, from any two states, return the
    same dictionary. *)
Theorem serialize_schema_result_stable (schema : PyVal)
  (defs1 defs2 : Definitions) (d1 d2 : Dict) :
  (serialize_schema schema defs1).2 = Ok d1 →
  (serialize_schema schema defs2).2 = Ok d2 →
  d1 = d2.
Proof.
  revert defs1 defs2 d1 d2.
  induction schema as [l IH|d IH|c IH|f IH|v Hv] using PyVal_resolver_ind;
    intros defs1 defs2 d1 d2 H1 H2.
  - simpl in *. destruct IH as [|x [|y l] Hx _]; simpl in *;
      [done| |congruence].
    unfold bind in *. specialize (Hx defs1 defs2).
    destruct (serialize_schema x defs1) as [defs1' [v1|e1]]; [|done].
    destruct (serialize_schema x defs2) as [defs2' [v2|e2]]; [|done].
    simpl in *. rewrite (Hx v1 v2 eq_refl eq_refl) in H1. congruence.
  - simpl in *. unfold Dictionary_serialize_with, bind in *.
    pose proof (properties_deterministic serialize_schema (fun _ => true) d
                  IH [] defs1 defs2) as Hp.
    destruct (properties serialize_schema (fun _ => true) d [] defs1)
      as [defs1' [p1|e1]]; [|done].
    destruct (properties serialize_schema (fun _ => true) d [] defs2)
      as [defs2' [p2|e2]]; [|done].
    simpl in *. rewrite (Hp p1 p2 eq_refl eq_refl) in H1. congruence.
  - simpl in *. unfold bind in *.
    assert (Hself : ∀ defs self,
              (Object_init_with serialize_schema c no_attrs None defs).2 =
              Ok self → self = mkObject no_attrs c (cls_name c)).
    { intros defs self. unfold Object_init_with.
      destruct (dict_mem defs (cls_id c)); simpl; [congruence|].
      unfold bind.
      destruct (Object_definition_with serialize_schema no_attrs c defs)
        as [defs' [v|e]]; simpl; congruence. }
    pose proof (Hself defs1) as Hs1. pose proof (Hself defs2) as Hs2.
    destruct (Object_init_with serialize_schema c no_attrs None defs1)
      as [defs1' [s1|e1]]; [|done].
    destruct (Object_init_with serialize_schema c no_attrs None defs2)
      as [defs2' [s2|e2]]; [|done].
    simpl in *. rewrite (Hs1 s1 eq_refl) in H1. rewrite (Hs2 s2 eq_refl) in H2.
    congruence.
  - destruct f as [| | | | | | | | |a fields|a items|]; simpl in *;
      try congruence.
    + unfold Dictionary_serialize_with, bind in *.
      pose proof (properties_deterministic serialize_schema (fun _ => true)
                    fields IH [] defs1 defs2) as Hp.
      destruct (properties serialize_schema (fun _ => true) fields []
                  defs1) as [defs1' [p1|e1]]; [|done].
      destruct (properties serialize_schema (fun _ => true) fields []
                  defs2) as [defs2' [p2|e2]]; [|done].
      simpl in *. rewrite (Hp p1 p2 eq_refl eq_refl) in H1. congruence.
    + destruct IH as [|x [|y l] Hx _]; simpl in *; [done| |congruence].
      unfold bind in *. specialize (Hx defs1 defs2).
      destruct (serialize_schema x defs1) as [defs1' [v1|e1]]; [|done].
      destruct (serialize_schema x defs2) as [defs2' [v2|e2]]; [|done].
      simpl in *. rewrite (Hx v1 v2 eq_refl eq_refl) in H1. congruence.
  - destruct v as [ |b|z|s|l|l|d|b|c|c|c|f|i t]; try done;
      simpl in *; try congruence.
    + destruct b; simpl in *; congruence.
    + destruct c; simpl in *; congruence.
Qed.

Lemma serialize_schema_result_stable_witness :
  let defs2 := (Object_init User no_attrs (Some "Account") []).1 in
  (serialize_schema (VList [VClass User]) []).2 =
    Ok [("type", VStr "array");
        ("items", VDict [("$ref", VStr "#/definitions/User")])] ∧
  ∃ d2, (serialize_schema (VList [VClass User]) defs2).2 = Ok d2 ∧
        [("type", VStr "array");
         ("items", VDict [("$ref", VStr "#/definitions/User")])] = d2.
Proof.
  cbv zeta. split; [reflexivity|]. eexists. split; [reflexivity|].
  apply (serialize_schema_result_stable (VList [VClass User]) []
           (Object_init User no_attrs (Some "Account") []).1);
    reflexivity.
Defined.
